(** * buffalo-azure, [cmd/provision.go]: the provisioning command

    A shallow embedding of the functions of [cmd/provision.go] that carry
    the provisioning policy: the template download with its retry and
    redirect bounds, tenant discovery, the resource-group check-then-act,
    the sanitizing copy of the deployment parameters, and the credential
    checks of the command.  The model comes first, the theorems follow. *)

From Equations Require Import Equations.
From stdpp Require Import base gmap strings list fin_maps pretty.
From Stdlib Require Import ZArith Lia Ascii.

Open Scope Z_scope.

(* ===================================================================== *)
(** * Part I: the model *)
(* ===================================================================== *)

(** ** Go values shared by all functions *)

(** A Go [error] carries its message; [errors.New] and [fmt.Errorf] build
    one from text.  A [nil] error is [None : option error]. *)
Inductive error : Type :=
| errorString (msg : string).

Definition errors_New (msg : string) : error := errorString msg.

(** [fmt.Errorf(prefix + "%d" + suffix, n)]: the decimal rendering of [n]
    inside a fixed text. *)
Definition Errorf_d (prefix : string) (n : Z) (suffix : string) : error :=
  errorString (prefix +:+ pretty n +:+ suffix).

(** The double quote, for messages formatted with [%q]. *)
Definition dquote : string := String (Ascii.ascii_of_nat 34) EmptyString.

(** [fmt.Errorf(prefix + "%q", s)] for a text [s] that needs no escaping. *)
Definition Errorf_q (prefix : string) (s : string) : error :=
  errorString (prefix +:+ dquote +:+ s +:+ dquote).

(** [fmt.Errorf(prefix + "%s", s)]. *)
Definition Errorf_s (prefix : string) (s : string) : error :=
  errorString (prefix +:+ s).

(** ** [net/http] as the download sees it *)

(** An [io.Reader] over a response body: the bytes it delivers and the
    error, if any, that ends the stream before [io.EOF]. *)
Record Reader : Type := mkReader {
  delivered : list Byte.byte;
  failure : option error
}.

(** [bytes.Buffer], the [io.Writer] that [getDeploymentTemplate] hands to
    the download: writing appends and never fails. *)
Abbreviation Buffer := (list Byte.byte).

(** [io.Copy(dest, src)]: everything read is written, the reader's error is
    returned. *)
Definition io_Copy (dest : Buffer) (src : Reader) : Buffer * option error :=
  (dest ++ delivered src, failure src).

Record Request : Type := mkRequest {
  Method : string;
  URL : string
}.

Record Response : Type := mkResponse {
  StatusCode : Z;
  Header : gmap string (list string);
  Body : Reader
}.

(** [http.Header.Get]: the first value stored under the key, or the empty
    text. *)
Definition Header_Get (h : gmap string (list string)) (key : string) : string :=
  match h !! key with
  | Some (v :: _) => v
  | _ => EmptyString
  end.

(** What lies outside the program: whether a URL parses
    ([http.NewRequest] fails otherwise), and what [http.DefaultClient.Do]
    answers to a request, given every request sent before it. *)
Record Transport : Type := mkTransport {
  url_Parse : string -> option error;
  RoundTrip : list Request -> Request -> error + Response
}.

Definition http_MethodGet : string := "GET".

Definition http_NewRequest (net : Transport) (method url : string) : error + Request :=
  match url_Parse net url with
  | Some e => inl e
  | None => inr (mkRequest method url)
  end.

(** [http.DefaultClient.Do]: the answer, and the request added to the log
    of requests sent. *)
Definition http_Do (net : Transport) (req : Request) (sent : list Request)
  : (error + Response) * list Request :=
  (RoundTrip net sent req, sent ++ [req]).

Definition http_StatusOK : Z := 200.
Definition http_StatusMovedPermanently : Z := 301.
Definition http_StatusFound : Z := 302.
Definition http_StatusSeeOther : Z := 303.
Definition http_StatusTemporaryRedirect : Z := 307.
Definition http_StatusPermanentRedirect : Z := 308.
Definition http_StatusRequestTimeout : Z := 408.
Definition http_StatusTooManyRequests : Z := 429.
Definition http_StatusGatewayTimeout : Z := 504.
Definition http_StatusNoContent : Z := 204.
Definition http_StatusNotFound : Z := 404.
Definition http_StatusCreated : Z := 201.

(** ** [downloadTemplate] *)

Definition redirectCodes : gset Z :=
  {[ http_StatusMovedPermanently; http_StatusPermanentRedirect;
     http_StatusTemporaryRedirect; http_StatusSeeOther; http_StatusFound ]}.

Definition temporaryFailureCodes : gset Z :=
  {[ http_StatusTooManyRequests; http_StatusGatewayTimeout;
     http_StatusRequestTimeout ]}.

Definition acceptedCodes : gset Z := {[ http_StatusOK ]}.

Definition maxRedirects : nat := 5.
Definition maxRetries : nat := 3.

Definition tooManyRedirects : error := errors_New "too many redirects".
Definition tooManyAttempts : error := errors_New "too many attempts".
Definition unexpectedStatus (code : Z) : error :=
  Errorf_d "unexpected status code: " code "".

(** The state a download threads: the requests sent so far and the
    destination buffer. *)
Record Download : Type := mkDownload {
  sent : list Request;
  dest : Buffer
}.

(** The body of the [for attempt := 0; attempt < maxRetries; attempt++]
    loop of [download], over the attempts still to run; [follow] is the
    recursive call [download(ctx, dest, loc, depth+1)]. *)
Fixpoint attempts (net : Transport)
    (follow : string -> Download -> option error * Download)
    (remaining : list nat) (src : string) (st : Download)
  : option error * Download :=
  match remaining with
  | [] => (Some tooManyAttempts, st)
  | _attempt :: remaining' =>
    match http_NewRequest net http_MethodGet src with
    | inl err => (Some err, st)
    | inr req =>
      let '(answer, sent') := http_Do net req (sent st) in
      match answer with
      | inl err => (Some err, mkDownload sent' (dest st))
      | inr resp =>
        if decide (StatusCode resp ∈ acceptedCodes) then
          let '(dest', err) := io_Copy (dest st) (Body resp) in
          (err, mkDownload sent' dest')
        else if decide (StatusCode resp ∈ redirectCodes) then
          follow (Header_Get (Header resp) "Location") (mkDownload sent' (dest st))
        else if decide (StatusCode resp ∈ temporaryFailureCodes) then
          attempts net follow remaining' src (mkDownload sent' (dest st))
        else
          (Some (unexpectedStatus (StatusCode resp)), mkDownload sent' (dest st))
      end
    end
  end.

(** The closure [download] of [downloadTemplate]; it recurses on a redirect
    with [depth+1] and stops once [depth > maxRedirects].  [depth] is a
    [uint] in the source; it never passes [maxRedirects + 1]. *)
Equations? download (net : Transport) (depth : nat) (src : string) (st : Download)
  : option error * Download by wf (S maxRedirects - depth)%nat lt :=
download net depth src st with le_lt_dec depth maxRedirects => {
  | right _ := (Some tooManyRedirects, st);
  | left _ :=
      attempts net (fun loc st' => download net (S depth) loc st')
        (seq 0 maxRetries) src st }.
Proof. unfold maxRedirects in *. lia. Qed.

Definition downloadTemplate (net : Transport) (dest : Buffer) (src : string)
  : option error * Download :=
  download net 1 src (mkDownload [] dest).

(** ** [viper]: the configuration of the command *)

(** A setting is a text or a flag; [GetString] and [GetBool] cast as
    [spf13/cast] does. *)
Inductive value : Type :=
| VString (s : string)
| VBool (b : bool).

Abbreviation Viper := (gmap string value).

Definition strconv_ParseBool (s : string) : bool :=
  bool_decide (s ∈ ["1"; "t"; "T"; "TRUE"; "true"; "True"]).

Definition cast_ToString (v : value) : string :=
  match v with
  | VString s => s
  | VBool true => "true"
  | VBool false => "false"
  end.

Definition cast_ToBool (v : value) : bool :=
  match v with
  | VBool b => b
  | VString s => strconv_ParseBool s
  end.

Definition GetString (conf : Viper) (key : string) : string :=
  match conf !! key with
  | Some v => cast_ToString v
  | None => EmptyString
  end.

Definition GetBool (conf : Viper) (key : string) : bool :=
  match conf !! key with
  | Some v => cast_ToBool v
  | None => false
  end.

(** [viper.Set]: an override, read before every other source of the key. *)
Definition Set_ (conf : Viper) (key : string) (v : value) : Viper :=
  <[key := v]> conf.

Definition SubscriptionName : string := "subscription-id".
Definition ClientIDName : string := "client-id".
Definition ClientSecretName : string := "client-secret".
Definition TenantIDName : string := "tenant-id".
Definition DeviceAuthName : string := "use-device-auth".

(** ** [adal], [autorest] and the subscriptions clients *)

Record Token : Type := mkToken {
  AccessToken : string;
  RefreshToken : string
}.

Record OAuthConfig : Type := mkOAuthConfig {
  AuthorityEndpoint : string;
  AuthorityTenant : string
}.

(** What a bearer authorizer draws its token from: the token of the device
    flow, a service principal with its secret, or a service principal built
    from a token by hand ([NewServicePrincipalTokenFromManualToken]). *)
Inductive TokenProvider : Type :=
| DeviceToken (t : Token)
| ServicePrincipalSecret (config : OAuthConfig) (clientID secret resource : string)
| ServicePrincipalManual (config : OAuthConfig) (clientID resource : string) (t : Token).

Inductive Authorizer : Type :=
| NewBearerAuthorizer (provider : TokenProvider).

Record DeviceCode : Type := mkDeviceCode {
  UserCode : string;
  Message : option string
}.

(** [subscriptions.TenantIDDescription] and [subscriptions.Subscription]:
    the identifiers are pointers, [None] is [nil]. *)
Record TenantIDDescription : Type := mkTenant {
  TenantID : option string
}.

Record Subscription : Type := mkSubscription {
  SubscriptionID : option string
}.

(** A paginated listing as its iterator walks it: it ends, yields an item
    and goes on, or fails while fetching a page.  A first page that fails
    is the error of [ListComplete]; a later one is the error of [Next]. *)
Inductive Listing (A : Type) : Type :=
| ListEnd
| ListItem (a : A) (rest : Listing A)
| ListError (e : error).
Arguments ListEnd {A}.
Arguments ListItem {A} a rest.
Arguments ListError {A} e.

(** The listing that yields [items] and then goes on as [rest]. *)
Fixpoint Listing_app {A : Type} (items : list A) (rest : Listing A) : Listing A :=
  match items with
  | [] => rest
  | a :: items' => ListItem a (Listing_app items' rest)
  end.

(** The listing that yields [items] and ends. *)
Definition Listing_of {A : Type} (items : list A) : Listing A :=
  Listing_app items ListEnd.

(** The listing cut where it fails: it ends there instead. *)
Fixpoint Listing_forget {A : Type} (l : Listing A) : Listing A :=
  match l with
  | ListEnd => ListEnd
  | ListItem a rest => ListItem a (Listing_forget rest)
  | ListError _ => ListEnd
  end.

(** The cloud the command talks to: the selected [environment], the
    constructors of [adal] that can refuse their arguments, the device
    flow, and the two listings. *)
Record Azure : Type := mkAzure {
  ActiveDirectoryEndpoint : string;
  ResourceManagerEndpoint : string;
  OAuthConfig_refused : string -> string -> option error;
  ServicePrincipalToken_refused : OAuthConfig -> string -> string -> string -> option error;
  ManualToken_refused : OAuthConfig -> string -> string -> Token -> option error;
  DeviceAuth : OAuthConfig -> string -> string -> error + DeviceCode;
  UserCompletion : DeviceCode -> error + Token;
  Tenants : Authorizer -> Listing TenantIDDescription;
  Subscriptions : Authorizer -> Listing Subscription
}.

Definition adal_NewOAuthConfig (az : Azure) (activeDirectoryEndpoint tenantID : string)
  : error + OAuthConfig :=
  match OAuthConfig_refused az activeDirectoryEndpoint tenantID with
  | Some err => inl err
  | None => inr (mkOAuthConfig activeDirectoryEndpoint tenantID)
  end.

Definition adal_NewServicePrincipalToken (az : Azure) (config : OAuthConfig)
    (clientID secret resource : string) : error + TokenProvider :=
  match ServicePrincipalToken_refused az config clientID secret resource with
  | Some err => inl err
  | None => inr (ServicePrincipalSecret config clientID secret resource)
  end.

Definition adal_NewServicePrincipalTokenFromManualToken (az : Azure)
    (config : OAuthConfig) (clientID resource : string) (t : Token)
  : error + TokenProvider :=
  match ManualToken_refused az config clientID resource t with
  | Some err => inl err
  | None => inr (ServicePrincipalManual config clientID resource t)
  end.

(** What a run does that is visible outside it, in order. *)
Inductive Call : Type :=
| CallInitiateDeviceAuth (config : OAuthConfig)
| CallPrintln (text : string)
| CallWaitForUserCompletion (code : DeviceCode)
| CallListTenants (auth : Authorizer)
| CallTokenFromManualToken (tenant : string)
| CallListSubscriptions (auth : Authorizer)
| CallCompare (tenant : string) (sub : Subscription)
| CallServicePrincipalToken (clientID : string).

(** How a Go function ends: it returns its value, returns an error, or
    panics on a nil pointer. *)
Inductive Outcome (A : Type) : Type :=
| Return (a : A)
| Fail (err : error)
| Panic.
Arguments Return {A} a.
Arguments Fail {A} err.
Arguments Panic {A}.

(** ** [strings.EqualFold] on ASCII text *)

Definition lowerASCII (c : ascii) : ascii :=
  let n := nat_of_ascii c in
  if ((65 <=? n) && (n <=? 90))%nat then ascii_of_nat (n + 32) else c.

(** Equality under case folding; on ASCII text, as subscription identifiers
    are, this is [strings.EqualFold]. *)
Fixpoint EqualFold (s t : string) : bool :=
  match s, t with
  | EmptyString, EmptyString => true
  | String a s', String b t' => Ascii.eqb (lowerASCII a) (lowerASCII b) && EqualFold s' t'
  | _, _ => false
  end.

(** ** [getTenant] *)

Definition deviceClientID : string := "04b07795-8ddb-461a-bbee-02f9e1bf7b46".

(** How the loop over a tenant's subscriptions leaves: by the [return] on
    a match, or by its condition, with the [err] it last assigned. *)
Inductive Scan : Type :=
| Matched
| Ended (err : option error).

(** The test of the inner loop: the identifier of [currentSub] is not nil
    and [strings.EqualFold] finds it equal to [subscription]. *)
Definition subscriptionMatches (subscription : string) (currentSub : Subscription) : bool :=
  match SubscriptionID currentSub with
  | Some id => EqualFold id subscription
  | None => false
  end.

(** The loop [for subscriptionList, err = subscriptionClient.ListComplete(ctx);
    err == nil && subscriptionList.NotDone(); err = subscriptionList.Next()]. *)
Fixpoint subscriptionLoop (subscription tenant : string) (l : Listing Subscription)
  : Scan * list Call :=
  match l with
  | ListError e => (Ended (Some e), [])
  | ListEnd => (Ended None, [])
  | ListItem currentSub rest =>
    if subscriptionMatches subscription currentSub
    then (Matched, [CallCompare tenant currentSub])
    else
      let '(scan, calls) := subscriptionLoop subscription tenant rest in
      (scan, CallCompare tenant currentSub :: calls)
  end.

Definition subscriptionNotFound (subscription : string) : error :=
  Errorf_s "unable to find subscription: " subscription.

(** The loop [for tenantList, err = tenants.ListComplete(ctx); err == nil &&
    tenantList.NotDone(); err = tenantList.Next()] and what follows it.

    The body declares an [err] of its own ([currentConfig, err := ...]), and
    the loop over the subscriptions assigns that one: when the inner loop
    leaves by its condition, its [err] goes out of scope with the body, and
    the post statement assigns the function's [err] from
    [tenantList.Next()].  So [Ended _] below continues with the rest of the
    tenants whatever error it carries. *)
Fixpoint tenantLoop (az : Azure) (common : Token) (subscription : string)
    (l : Listing TenantIDDescription) (conf : Viper)
  : Outcome (string * Authorizer) * Viper * list Call :=
  match l with
  | ListError err => (Fail err, conf, [])
  | ListEnd => (Fail (subscriptionNotFound subscription), conf, [])
  | ListItem t rest =>
    match TenantID t with
    | None => (Panic, conf, [])
    | Some currentTenant =>
      match adal_NewOAuthConfig az (ActiveDirectoryEndpoint az) currentTenant with
      | inl err => (Fail err, conf, [])
      | inr currentConfig =>
        match adal_NewServicePrincipalTokenFromManualToken az currentConfig
                deviceClientID (ResourceManagerEndpoint az)
                (mkToken EmptyString (RefreshToken common)) with
        | inl err => (Fail err, conf, [CallTokenFromManualToken currentTenant])
        | inr currentAuth =>
          let auth := NewBearerAuthorizer currentAuth in
          let '(scan, compared) :=
            subscriptionLoop subscription currentTenant (Subscriptions az auth) in
          let here :=
            CallTokenFromManualToken currentTenant :: CallListSubscriptions auth :: compared in
          match scan with
          | Matched =>
            (Return (currentTenant, auth), Set_ conf TenantIDName (VString currentTenant), here)
          | Ended _ =>
            let '(out, conf', calls) := tenantLoop az common subscription rest conf in
            (out, conf', here ++ calls)
          end
        end
      end
    end
  end.

Definition getTenant (az : Azure) (conf : Viper) (common : Token) (subscription : string)
  : Outcome (string * Authorizer) * Viper * list Call :=
  let tenants_Authorizer := NewBearerAuthorizer (DeviceToken common) in
  let '(out, conf', calls) :=
    tenantLoop az common subscription (Tenants az tenants_Authorizer) conf in
  (out, conf', CallListTenants tenants_Authorizer :: calls).

(** ** [getAuthorizer] *)

Definition commonTenant : string := "common".

Definition tenantInferenceUnsupported : error :=
  errors_New "tenant inference unsupported with Service Principal authentication".

Definition getAuthorizer (az : Azure) (conf : Viper)
    (subscriptionID clientID clientSecret tenantID : string)
  : Outcome Authorizer * Viper * list Call :=
  let tenantID := if decide (tenantID = EmptyString) then commonTenant else tenantID in
  match adal_NewOAuthConfig az (ActiveDirectoryEndpoint az) tenantID with
  | inl err => (Fail err, conf, [])
  | inr config =>
    if GetBool conf DeviceAuthName then
      let initiated := [CallInitiateDeviceAuth config] in
      match DeviceAuth az config deviceClientID (ResourceManagerEndpoint az) with
      | inl err => (Fail err, conf, initiated)
      | inr code =>
        match Message code with
        | None => (Panic, conf, initiated)
        | Some text =>
          let waited := initiated ++ [CallPrintln text; CallWaitForUserCompletion code] in
          match UserCompletion az code with
          | inl err => (Fail err, conf, waited)
          | inr intermediate =>
            if decide (tenantID = commonTenant) then
              let '(found, conf', calls) := getTenant az conf intermediate subscriptionID in
              match found with
              | Return (_, final) => (Return final, conf', waited ++ calls)
              | Fail err => (Fail err, conf', waited ++ calls)
              | Panic => (Panic, conf', waited ++ calls)
              end
            else (Return (NewBearerAuthorizer (DeviceToken intermediate)), conf, waited)
          end
        end
      end
    else if decide (tenantID = commonTenant) then
      (Fail tenantInferenceUnsupported, conf, [])
    else
      match adal_NewServicePrincipalToken az config clientID clientSecret
              (ResourceManagerEndpoint az) with
      | inl err => (Fail err, conf, [CallServicePrincipalToken clientID])
      | inr auth => (Return (NewBearerAuthorizer auth), conf, [CallServicePrincipalToken clientID])
      end
  end.

(** ** [provisionCmd.Args] and the order in which [cobra] runs a command *)

Definition noSubscription : error := Errorf_q "no value found for " SubscriptionName.

Definition incompleteCredentials : error :=
  errors_New "--client-id and --client-secret must be specified together or not at all".

(** [provisionCmd.Args] up to the check of the credentials; [tail] is the
    rest of the function (log level, defaults, parameter file, names,
    environment), which this development does not look into. *)
Definition provisionCmd_Args (tail : Viper -> Viper * option error) (conf : Viper)
  : Viper * option error :=
  if decide (GetString conf SubscriptionName = EmptyString) then
    (conf, Some noSubscription)
  else
    let hasClientID := bool_decide (GetString conf ClientIDName <> EmptyString) in
    let hasClientSecret := bool_decide (GetString conf ClientSecretName <> EmptyString) in
    if negb hasClientSecret && negb hasClientID then
      tail (Set_ conf DeviceAuthName (VBool true))
    else if (hasClientID || hasClientSecret) && negb (hasClientID && hasClientSecret) then
      (conf, Some incompleteCredentials)
    else
      tail conf.

(** [cobra.Command.execute]: [Args] validates first, and [Run], where every
    call to the network is made, starts only when [Args] returned no
    error. *)
Definition execute (args : Viper -> Viper * option error) (run : Viper -> list Call)
    (conf : Viper) : option error * list Call :=
  match args conf with
  | (_, Some err) => (Some err, [])
  | (conf', None) => (None, run conf')
  end.

(** ** [insertResourceGroup] *)

(** [resources.Group] as the function builds it: only the location is set. *)
Record Group : Type := mkGroup {
  Location : option string
}.

(** [resources.GroupsClient]: the two operations used, each answering with
    an error or the status code of the response, over the state of the
    service behind the client. *)
Class GroupsClient (S : Type) : Type := {
  CheckExistence : S -> string -> (error + Z) * S;
  CreateOrUpdate : S -> string -> Group -> (error + Z) * S
}.

Definition unexpectedCreateStatus (code : Z) : error :=
  Errorf_d "unexpected status code " code " during resource group creation".

Definition unexpectedExistenceStatus (code : Z) : error :=
  Errorf_d "unexpected status code " code " during resource group existence check".

Definition insertResourceGroup {S : Type} `{GroupsClient S}
    (groups : S) (name location : string) : (bool * option error) * S :=
  match CheckExistence groups name with
  | (inl err, groups) => ((false, Some err), groups)
  | (inr existenceResp, groups) =>
    if decide (existenceResp = http_StatusNoContent) then ((false, None), groups)
    else if decide (existenceResp = http_StatusNotFound) then
      match CreateOrUpdate groups name (mkGroup (Some location)) with
      | (inl err, groups) => ((false, Some err), groups)
      | (inr createResp, groups) =>
        if decide (createResp = http_StatusCreated) then ((true, None), groups)
        else if decide (createResp = http_StatusOK) then ((false, None), groups)
        else ((false, Some (unexpectedCreateStatus createResp)), groups)
      end
    else ((false, Some (unexpectedExistenceStatus existenceResp)), groups)
  end.

(** The resource manager behind the client: the groups it holds by name
    and the requests it has received.  A HEAD answers 204 for a group that
    exists and 404 otherwise; a PUT creates an absent group (201), leaves a
    present one in its region (200), and refuses to move it (409). *)
Inductive GroupsRequest : Type :=
| HeadGroup (name : string)
| PutGroup (name : string) (parameters : Group).

Record ResourceManager : Type := mkResourceManager {
  resourceGroups : gmap string Group;
  received : list GroupsRequest
}.

Definition http_StatusConflict : Z := 409.

Definition ResourceManager_head (arm : ResourceManager) (name : string)
  : (error + Z) * ResourceManager :=
  let arm' := mkResourceManager (resourceGroups arm) (received arm ++ [HeadGroup name]) in
  match resourceGroups arm !! name with
  | Some _ => (inr http_StatusNoContent, arm')
  | None => (inr http_StatusNotFound, arm')
  end.

Definition ResourceManager_put (arm : ResourceManager) (name : string) (g : Group)
  : (error + Z) * ResourceManager :=
  let log := received arm ++ [PutGroup name g] in
  match resourceGroups arm !! name with
  | None => (inr http_StatusCreated, mkResourceManager (<[name := g]> (resourceGroups arm)) log)
  | Some present =>
    if decide (Location present = Location g)
    then (inr http_StatusOK, mkResourceManager (resourceGroups arm) log)
    else (inr http_StatusConflict, mkResourceManager (resourceGroups arm) log)
  end.

#[export] Instance ResourceManager_client : GroupsClient ResourceManager := {
  CheckExistence := ResourceManager_head;
  CreateOrUpdate := ResourceManager_put
}.

(** ** [DeploymentParameters] on the heap, and [stripPasswords] *)

(** [stripPasswords] takes and returns pointers, and a Go map is a
    reference: the model keeps the structs and the map objects in a heap,
    so that what the function leaves untouched can be stated. *)
Abbreviation ptr := positive.

Section Sanitize.

(** The type of what a parameter holds ([interface{}] in the source). *)
Context {any : Type}.

(** [DeploymentParameter]: one entry of the parameter list. *)
Record DeploymentParameter : Type := mkDeploymentParameter {
  Value : any
}.

(** [DeploymentParameters]: the struct; its [Parameters] field refers to a
    map object, [None] being the nil map. *)
Record DeploymentParameters : Type := mkDeploymentParameters {
  Schema : string;
  ContentVersion : string;
  Parameters : option ptr
}.

Record Heap : Type := mkHeap {
  structs : gmap ptr DeploymentParameters;
  maps : gmap ptr (gmap string DeploymentParameter)
}.

(** A computation on the heap; [None] is a panic (a nil or dangling
    pointer dereferenced, an assignment to an entry of the nil map). *)
Definition Go (A : Type) : Type := Heap -> option (A * Heap).

Definition ret {A : Type} (a : A) : Go A := fun h => Some (a, h).

Definition bind {A B : Type} (m : Go A) (k : A -> Go B) : Go B :=
  fun h => match m h with
           | Some (a, h') => k a h'
           | None => None
           end.

Local Notation "'let*' x ':=' m 'in' k" := (bind m (fun x => k))
  (at level 10, x pattern, m at level 100, k at level 200).

(** [&DeploymentParameters{...}]: a new struct. *)
Definition newStruct (s : DeploymentParameters) : Go ptr :=
  fun h => let p := fresh (dom (structs h)) in
           Some (p, mkHeap (<[p := s]> (structs h)) (maps h)).

(** [make(map[string]DeploymentParameter, n)]: a new, empty map; the size
    is a hint only. *)
Definition makeMap (_n : nat) : Go (option ptr) :=
  fun h => let m := fresh (dom (maps h)) in
           Some (Some m, mkHeap (structs h) (<[m := ∅]> (maps h))).

(** [*p] *)
Definition load (p : ptr) : Go DeploymentParameters :=
  fun h => match structs h !! p with
           | Some s => Some (s, h)
           | None => None
           end.

(** [*p = s] *)
Definition store (p : ptr) (s : DeploymentParameters) : Go unit :=
  fun h => match structs h !! p with
           | Some _ => Some (tt, mkHeap (<[p := s]> (structs h)) (maps h))
           | None => None
           end.

(** The entries of a map; the nil map has none. *)
Definition entries (m : option ptr) : Go (gmap string DeploymentParameter) :=
  fun h => match m with
           | None => Some (∅, h)
           | Some mp => match maps h !! mp with
                        | Some kvs => Some (kvs, h)
                        | None => None
                        end
           end.

(** [m[k] = v] *)
Definition mapassign (m : option ptr) (k : string) (v : DeploymentParameter) : Go unit :=
  fun h => match m with
           | None => None
           | Some mp => match maps h !! mp with
                        | Some kvs => Some (tt, mkHeap (structs h) (<[mp := <[k := v]> kvs]> (maps h)))
                        | None => None
                        end
           end.

(** [delete(m, k)]; on the nil map it does nothing. *)
Definition mapdelete (m : option ptr) (k : string) : Go unit :=
  fun h => match m with
           | None => Some (tt, h)
           | Some mp => match maps h !! mp with
                        | Some kvs => Some (tt, mkHeap (structs h) (<[mp := delete k kvs]> (maps h)))
                        | None => None
                        end
           end.

(** [for k, v := range ... { body }] over the entries read when the loop
    starts. *)
Fixpoint forRange (kvs : list (string * DeploymentParameter))
    (body : string -> DeploymentParameter -> Go unit) : Go unit :=
  match kvs with
  | [] => ret tt
  | (k, v) :: kvs' => let* _ := body k v in forRange kvs' body
  end.

(** Modelled from the spec: [NewDeploymentParameters] is declared outside
    the files at hand.  A parameter set is a mapping from parameter names
    to values plus a schema identifier and a content-version string; a new
    one holds the defaults for the two texts and no parameter. *)
Definition NewDeploymentParameters (defaults : string * string) : Go ptr :=
  let* parameters := makeMap 0 in
  newStruct (mkDeploymentParameters (fst defaults) (snd defaults) parameters).

Definition databasePasswordKey : string := "databaseAdministratorLoginPassword".
Definition registryPasswordKey : string := "dockerRegistryServerPassword".

Definition stripPasswords (defaults : string * string) (original : ptr) : Go ptr :=
  let* copy := NewDeploymentParameters defaults in
  (* copy.Parameters = make(map[string]DeploymentParameter, len(original.Parameters)) *)
  let* o := load original in
  let* source := entries (Parameters o) in
  let* fresh_map := makeMap (size source) in
  let* c := load copy in
  let* _ := store copy (mkDeploymentParameters (Schema c) (ContentVersion c) fresh_map) in
  (* copy.ContentVersion = original.ContentVersion *)
  let* o := load original in
  let* c := load copy in
  let* _ := store copy (mkDeploymentParameters (Schema c) (ContentVersion o) (Parameters c)) in
  (* copy.Schema = original.Schema *)
  let* o := load original in
  let* c := load copy in
  let* _ := store copy (mkDeploymentParameters (Schema o) (ContentVersion c) (Parameters c)) in
  (* for k, v := range original.Parameters { copy.Parameters[k] = v } *)
  let* o := load original in
  let* source := entries (Parameters o) in
  let* _ := forRange (map_to_list source)
              (fun k v => let* c := load copy in mapassign (Parameters c) k v) in
  let* c := load copy in
  let* _ := mapdelete (Parameters c) databasePasswordKey in
  let* c := load copy in
  let* _ := mapdelete (Parameters c) registryPasswordKey in
  ret copy.

(** What a pointer to a parameter set stands for: the two texts and the
    entries of its map. *)
Definition contents (h : Heap) (p : ptr)
  : option (string * string * gmap string DeploymentParameter) :=
  match structs h !! p with
  | None => None
  | Some s =>
    match Parameters s with
    | None => Some (Schema s, ContentVersion s, ∅)
    | Some mp =>
      match maps h !! mp with
      | Some kvs => Some (Schema s, ContentVersion s, kvs)
      | None => None
      end
    end
  end.

End Sanitize.

Arguments DeploymentParameter any : clear implicits.
Arguments Heap any : clear implicits.
Arguments Go any A : clear implicits.

(** ** Describing what the network answers *)

Definition GET (url : string) : Request := mkRequest http_MethodGet url.

(** The [k]-th request of a hop for [src], sent after [before] and [k]
    equal requests, is answered with the status [codes !! k]. *)
Definition answered (net : Transport) (before : list Request) (src : string)
    (codes : list Z) : Prop :=
  forall (k : nat) (code : Z), codes !! k = Some code ->
    exists resp, RoundTrip net (before ++ replicate k (GET src)) (GET src) = inr resp
                 /\ StatusCode resp = code.

Definition isRedirect (code : Z) : Prop :=
  code = 301 \/ code = 302 \/ code = 303 \/ code = 307 \/ code = 308.

(** Starting at [src] after the requests [before], the network answers
    each hop on its first attempt with the next response of [hops], a
    redirect to the URL of the hop after it. *)
Fixpoint redirected (net : Transport) (before : list Request) (src : string)
    (hops : list Response) : Prop :=
  match hops with
  | [] => True
  | resp :: hops' =>
    url_Parse net src = None
    /\ RoundTrip net before (GET src) = inr resp
    /\ isRedirect (StatusCode resp)
    /\ redirected net (before ++ [GET src]) (Header_Get (Header resp) "Location") hops'
  end.

(** The URLs visited along [hops], and the one they lead to. *)
Fixpoint visited (src : string) (hops : list Response) : list Request :=
  match hops with
  | [] => []
  | resp :: hops' => GET src :: visited (Header_Get (Header resp) "Location") hops'
  end.

Fixpoint target (src : string) (hops : list Response) : string :=
  match hops with
  | [] => src
  | resp :: hops' => target (Header_Get (Header resp) "Location") hops'
  end.

(** The authorizer [getTenant] builds for a tenant, and what it takes for
    [adal] to build it. *)
Definition tenantAuthorizer (az : Azure) (common : Token) (tenant : string) : Authorizer :=
  NewBearerAuthorizer
    (ServicePrincipalManual (mkOAuthConfig (ActiveDirectoryEndpoint az) tenant)
       deviceClientID (ResourceManagerEndpoint az)
       (mkToken EmptyString (RefreshToken common))).

Definition minted (az : Azure) (common : Token) (tenant : string) : Prop :=
  OAuthConfig_refused az (ActiveDirectoryEndpoint az) tenant = None
  /\ ManualToken_refused az (mkOAuthConfig (ActiveDirectoryEndpoint az) tenant)
       deviceClientID (ResourceManagerEndpoint az)
       (mkToken EmptyString (RefreshToken common)) = None.

(** The calls of one pass of the outer loop that compares [subs]. *)
Definition scanned (az : Azure) (common : Token) (tenant : string)
    (subs : list Subscription) : list Call :=
  CallTokenFromManualToken tenant
    :: CallListSubscriptions (tenantAuthorizer az common tenant)
    :: map (CallCompare tenant) subs.

(** A tenant of the listing with its subscriptions, none of them the one
    looked for, listed to the end without an error. *)
Definition passedOver (az : Azure) (common : Token) (subscription : string)
    (entry : string * list Subscription) : Prop :=
  minted az common entry.1
  /\ Subscriptions az (tenantAuthorizer az common entry.1) = Listing_of entry.2
  /\ Forall (fun sub => subscriptionMatches subscription sub = false) entry.2.

Definition tenantsOf (entries : list (string * list Subscription))
  : list TenantIDDescription :=
  map (fun entry => mkTenant (Some entry.1)) entries.

(** [strings.ToLower] on ASCII text. *)
Fixpoint ToLower (s : string) : string :=
  match s with
  | EmptyString => EmptyString
  | String c s' => String (lowerASCII c) (ToLower s')
  end.

(** A network that answers the [n]-th request with the [n]-th response
    of a script, whatever is asked, and fails once the script is over. *)
Definition scripted (answers : list Response) : Transport :=
  mkTransport
    (fun _ => None)
    (fun before _ =>
       match answers !! length before with
       | Some resp => inr resp
       | None => inl (errors_New "connection refused")
       end).

Definition answer (code : Z) (location : string) (body : list Byte.byte) : Response :=
  mkResponse code
    (if decide (location = EmptyString) then ∅ else {[ "Location" := [location] ]})
    (mkReader body None).

(** ** The client behind [Do]

    [downloadTemplate] sends its requests through [http.DefaultClient],
    and nothing in the program sets a [CheckRedirect].  What [Do] hands
    back is then what [net/http] documents for its default client. *)

(** A server: what it answers to a GET of a URL, or the error that broke
    the connection. *)
Definition Server : Type := string -> error + Response.

(** The codes the client follows by itself for a GET. *)
Definition followedCodes : gset Z := {[ 301; 302; 303; 307; 308 ]}.

(** The error of the default redirect policy. *)
Definition stoppedAfter10Redirects : error := errors_New "stopped after 10 redirects".

(** The error of the transport for a URL without a scheme. *)
Definition unsupportedScheme : error := Errorf_q "unsupported protocol scheme " EmptyString.

(** The loop of [Client.Do] for a GET.  An answer with one of the
    [followedCodes] and a [Location] is not handed back: the client asks
    for that location itself, and goes on so until an answer has another
    code or no [Location].  The default policy lets nine redirects pass
    and refuses the tenth; [allowed] is the number it still lets pass.
    A [Location] is taken as the absolute URL it names.  (Earlier
    releases of [net/http] answer a 301, 302 or 303 without [Location]
    by an error and hand back only a 307 or 308 without one; no
    statement below turns on that case.) *)
Fixpoint Client_follow (srv : Server) (allowed : nat) (url : string) : error + Response :=
  match srv url with
  | inl err => inl err
  | inr resp =>
    if decide (StatusCode resp ∈ followedCodes) then
      let loc := Header_Get (Header resp) "Location" in
      if decide (loc = EmptyString) then inr resp
      else match allowed with
           | O => inl stoppedAfter10Redirects
           | S allowed' => Client_follow srv allowed' loc
           end
    else inr resp
  end.

(** [http.DefaultClient.Do]: the empty URL has no scheme and is refused
    before anything is sent.  The errors are given without the
    [url.Error] that [Do] wraps them in. *)
Definition http_DefaultClient_Do (srv : Server) (req : Request) : error + Response :=
  if decide (URL req = EmptyString) then inl unsupportedScheme
  else Client_follow srv 9 (URL req).

(** The outside of the program when [Do] is the default client in front
    of a server; [parse] says which URLs [http.NewRequest] refuses. *)
Definition defaultClient (parse : string -> option error) (srv : Server) : Transport :=
  mkTransport parse (fun _ req => http_DefaultClient_Do srv req).

(** What holds of every answer of the default client, whatever the
    server: a redirect it hands back carries no [Location], and a request
    for the empty URL fails. *)
Definition asDefaultClient (net : Transport) : Prop :=
  (forall (before : list Request) (req : Request) (resp : Response),
     RoundTrip net before req = inr resp ->
     StatusCode resp ∈ redirectCodes ->
     Header_Get (Header resp) "Location" = EmptyString)
  /\ (forall before : list Request,
        exists err : error, RoundTrip net before (GET EmptyString) = inl err).

(** From [url], the server redirects to each of [locations] in turn. *)
Fixpoint redirecting (srv : Server) (url : string) (locations : list string) : Prop :=
  match locations with
  | [] => True
  | loc :: rest =>
    exists resp : Response,
      srv url = inr resp
      /\ StatusCode resp ∈ followedCodes
      /\ Header_Get (Header resp) "Location" = loc
      /\ loc <> EmptyString
      /\ redirecting srv loc rest
  end.

(** Where such a chain arrives. *)
Fixpoint arrival (url : string) (locations : list string) : string :=
  match locations with
  | [] => url
  | loc :: rest => arrival loc rest
  end.

(** A network that refuses the empty URL as the client does, and
    otherwise answers as [net]. *)
Definition refusingEmpty (net : Transport) : Transport :=
  mkTransport (url_Parse net)
    (fun before req =>
       if decide (URL req = EmptyString) then inl unsupportedScheme
       else RoundTrip net before req).

(** ** Worlds and inputs the statements are tried on *)

Definition templateLink : string := "https://aka.ms/buffalo-template".
Definition templateBody : list Byte.byte := [Byte.x7b; Byte.x7d].

(** Three temporary failures in a row, one of each code. *)
Definition threeFailures : Transport :=
  scripted [answer 429 "" []; answer 408 "" []; answer 504 "" []].

(** A server that redirects six times, through each of the codes, before
    it answers 200. *)
Definition sixRedirects : Server := fun url =>
  if decide (url = "http://a") then inr (answer 301 "http://b" [])
  else if decide (url = "http://b") then inr (answer 302 "http://c" [])
  else if decide (url = "http://c") then inr (answer 303 "http://d" [])
  else if decide (url = "http://d") then inr (answer 307 "http://e" [])
  else if decide (url = "http://e") then inr (answer 308 "http://f" [])
  else if decide (url = "http://f") then inr (answer 302 "http://g" [])
  else if decide (url = "http://g") then inr (answer 200 "" templateBody)
  else inl (errors_New "dial tcp: no such host").

(** One 302, then a 200. *)
Definition movedOnce : Transport :=
  scripted [answer 302 "http://b" []; answer 200 "" templateBody].

(** A world with two tenants: the first holds two other subscriptions,
    the second holds one more and then the target, spelled in capitals,
    and a listing that would fail if it were read any further. *)
Definition someToken : Token := mkToken "access" "refresh".
Definition targetSubscription : string := "0a1b2c3d-0000-4000-8000-00000000beef".

Definition subscriptionsOf (byTenant : string -> Listing Subscription) (auth : Authorizer)
  : Listing Subscription :=
  match auth with
  | NewBearerAuthorizer (ServicePrincipalManual config _ _ _) =>
    byTenant (AuthorityTenant config)
  | _ => ListError (errors_New "401 Unauthorized")
  end.

Definition azureWith (tenants : Listing TenantIDDescription)
    (byTenant : string -> Listing Subscription) : Azure :=
  mkAzure "https://login.microsoftonline.com/" "https://management.azure.com/"
    (fun _ _ => None) (fun _ _ _ _ => None) (fun _ _ _ _ => None)
    (fun _ _ _ => inl (errors_New "no device flow"))
    (fun _ => inl (errors_New "no device flow"))
    (fun _ => tenants) (subscriptionsOf byTenant).

Definition otherSubscriptions : list Subscription :=
  [mkSubscription (Some "11111111-0000-4000-8000-000000000001"); mkSubscription None].

Definition twoTenants : Azure :=
  azureWith
    (Listing_app [mkTenant (Some "tenant-1"); mkTenant (Some "tenant-2")]
       (ListError (errors_New "tenants: next page failed")))
    (fun tenant =>
       if decide (tenant = "tenant-1") then Listing_of otherSubscriptions
       else Listing_app
              [mkSubscription (Some "22222222-0000-4000-8000-000000000002");
               mkSubscription (Some "0A1B2C3D-0000-4000-8000-00000000BEEF")]
              (ListError (errors_New "subscriptions: next page failed"))).

(** The cloud with every failing subscription listing cut where it
    fails. *)
Definition forgetting (az : Azure) : Azure :=
  mkAzure (ActiveDirectoryEndpoint az) (ResourceManagerEndpoint az)
    (OAuthConfig_refused az) (ServicePrincipalToken_refused az) (ManualToken_refused az)
    (DeviceAuth az) (UserCompletion az) (Tenants az)
    (fun auth => Listing_forget (Subscriptions az auth)).

(** Listing the subscriptions of the first tenant fails; the second
    tenant holds the target. *)
Definition listingFailed : error := errors_New "subscriptions.Client#List: 403 Forbidden".

Definition firstListingFails : Azure :=
  azureWith
    (Listing_of [mkTenant (Some "tenant-1"); mkTenant (Some "tenant-2")])
    (fun tenant =>
       if decide (tenant = "tenant-1") then ListError listingFailed
       else Listing_of [mkSubscription (Some targetSubscription)]).

Definition onlyListingFails : Azure :=
  azureWith (Listing_of [mkTenant (Some "tenant-1")]) (fun _ => ListError listingFailed).

Definition publicCloud : Azure := azureWith ListEnd (fun _ => ListEnd).

Definition servicePrincipalRun : Viper :=
  {[ SubscriptionName := VString targetSubscription;
     ClientIDName := VString "6f1c0a52-app";
     ClientSecretName := VString "s3cret" ]}.

Definition acceptAll (conf : Viper) : Viper * option error := (conf, None).

Definition deviceLogin (conf : Viper) : list Call :=
  [CallInitiateDeviceAuth (mkOAuthConfig "https://login.microsoftonline.com/" commonTenant)].

Definition clientIDOnly : Viper :=
  {[ SubscriptionName := VString targetSubscription;
     ClientIDName := VString "6f1c0a52-app" ]}.

(** Settings that hold a client ID and nothing else. *)
Definition clientIDWithoutSubscription : Viper :=
  {[ ClientIDName := VString "6f1c0a52-app" ]}.

Definition noGroups : ResourceManager := mkResourceManager ∅ [].

(** A heap with one parameter set that holds no password, and one that
    holds both. *)
Definition plainParameters : gmap string (DeploymentParameter string) :=
  {[ "name" := mkDeploymentParameter "buffalo-app-x7";
     "database" := mkDeploymentParameter "postgres" ]}.

Definition secretParameters : gmap string (DeploymentParameter string) :=
  <[ databasePasswordKey := mkDeploymentParameter "MSFT+Buffalo-secret" ]>
    (<[ registryPasswordKey := mkDeploymentParameter "hunter2" ]> plainParameters).

Definition parametersSchema : string :=
  "https://schema.management.azure.com/schemas/2015-01-01/deploymentParameters.json#".

Definition twoSets : Heap string :=
  mkHeap
    {[ 1%positive := mkDeploymentParameters parametersSchema "1.0.0.0" (Some 1%positive);
       2%positive := mkDeploymentParameters parametersSchema "1.0.0.0" (Some 2%positive) ]}
    {[ 1%positive := plainParameters; 2%positive := secretParameters ]}.

(** ** What a download may do to the state it starts from *)

(** The requests [extra] were added to the log, at most [budget] of them
    and every one a GET; and either the call failed and left the buffer
    alone, or the last request was answered 200 and the body of that
    answer, and nothing else, was appended, the result being what the
    copy returned. *)
Definition advanced (net : Transport) (budget : nat) (st : Download)
    (res : option error * Download) : Prop :=
  exists extra : list Request,
    sent res.2 = sent st ++ extra
    /\ (length extra <= budget)%nat
    /\ Forall (fun req => Method req = http_MethodGet) extra
    /\ ((res.1 <> None /\ dest res.2 = dest st)
        \/ exists (resp : Response) (before : list Request) (req : Request),
             sent res.2 = before ++ [req]
             /\ RoundTrip net before req = inr resp
             /\ StatusCode resp = 200
             /\ res.1 = failure (Body resp)
             /\ dest res.2 = dest st ++ delivered (Body resp)).

(** A status the download has no rule for. *)
Definition unexpected (code : Z) : Prop :=
  code <> 200 /\ ~ isRedirect code /\ code ∉ temporaryFailureCodes.

(** Two temporary failures, then a redirect without a [Location], which
    the client hands back. *)
Definition handedBack : Transport :=
  refusingEmpty (scripted [answer 408 "" []; answer 429 "" []; answer 308 "" []]).

(** Two temporary failures, then the connection breaks. *)
Definition connectionReset : error := errors_New "read: connection reset by peer".

Definition breaksOnThird : Transport :=
  mkTransport (fun _ => None)
    (fun before _ =>
       if decide (length before < 2)%nat then inr (answer 504 "" [])
       else inl connectionReset).

(** Two temporary failures, then a status the download has no rule for. *)
Definition failsOnThird : Transport :=
  scripted [answer 408 "" []; answer 429 "" []; answer 503 "" []].

(** Two temporary failures, then a redirect without a [Location]; behind
    it two more failures and a 200. *)
Definition movedNowhere : Transport :=
  scripted [answer 408 "" []; answer 429 "" []; answer 301 "" [];
            answer 504 "" []; answer 504 "" []; answer 200 "" templateBody].

(** ** What a listing yields *)

(** [a] is one of the items the listing yields before it ends or fails. *)
Fixpoint Listing_In {A : Type} (a : A) (l : Listing A) : Prop :=
  match l with
  | ListItem b rest => a = b \/ Listing_In a rest
  | _ => False
  end.

(** A call that lists tenants or subscriptions, or compares one. *)
Definition isDiscovery (c : Call) : Prop :=
  match c with
  | CallListTenants _ | CallTokenFromManualToken _
  | CallListSubscriptions _ | CallCompare _ _ => True
  | _ => False
  end.

(** A call of the device flow: it shows a code and waits for the user. *)
Definition isDeviceFlow (c : Call) : Prop :=
  match c with
  | CallInitiateDeviceAuth _ | CallPrintln _ | CallWaitForUserCompletion _ => True
  | _ => False
  end.

(** The second page of the tenants fails. *)
Definition tenantsPageFailed : error := errors_New "subscriptions.TenantsClient#List: 429".

Definition secondPageFails : Azure :=
  azureWith
    (Listing_app [mkTenant (Some "tenant-1")] (ListError tenantsPageFailed))
    (fun _ => Listing_of otherSubscriptions).

(** [adal] refuses to build the token for the second tenant. *)
Definition tokenRefused : error := errors_New "parameter 'resource' cannot be empty".

Definition secondTokenRefused : Azure :=
  mkAzure "https://login.microsoftonline.com/" "https://management.azure.com/"
    (fun _ _ => None) (fun _ _ _ _ => None)
    (fun config _ _ _ =>
       if decide (AuthorityTenant config = "tenant-2") then Some tokenRefused else None)
    (fun _ _ _ => inl (errors_New "no device flow"))
    (fun _ => inl (errors_New "no device flow"))
    (fun _ => Listing_of [mkTenant (Some "tenant-1"); mkTenant (Some "tenant-2");
                          mkTenant (Some "tenant-3")])
    (subscriptionsOf (fun _ => Listing_of otherSubscriptions)).

(** A cloud where the device flow completes, with the tenants and
    subscriptions of [twoTenants]. *)
Definition deviceCode : DeviceCode :=
  mkDeviceCode "ABCD-1234" (Some "To sign in, open the page and enter the code ABCD-1234").

Definition signedIn : Azure :=
  mkAzure (ActiveDirectoryEndpoint twoTenants) (ResourceManagerEndpoint twoTenants)
    (fun _ _ => None) (fun _ _ _ _ => None) (fun _ _ _ _ => None)
    (fun _ _ _ => inr deviceCode)
    (fun _ => inr someToken)
    (Tenants twoTenants) (Subscriptions twoTenants).

Definition deviceRun : Viper :=
  {[ SubscriptionName := VString targetSubscription;
     DeviceAuthName := VBool true ]}.

Definition noCredentials : Viper :=
  {[ SubscriptionName := VString targetSubscription ]}.

(** A heap as [twoSets], with one more parameter set whose map is nil. *)
Definition nilMapSet : Heap string :=
  mkHeap
    (<[ 3%positive := mkDeploymentParameters parametersSchema "1.0.0.0" None ]>
       (structs twoSets))
    (maps twoSets).

(** ** [isSupportedLink] and [getDeploymentTemplate] *)

(** [url.URL], the field that is read. *)
Record url_URL : Type := mkURL {
  Scheme : string
}.

(** The machine the command runs on, as these two functions see it: what
    [url.ParseRequestURI] makes of a text, and what [os.Open] finds under
    a path, a file to read or an error. *)
Record Host : Type := mkHost {
  url_ParseRequestURI : string -> error + url_URL;
  os_Open : string -> error + Reader
}.

(** [ioutil.ReadAll] as the function uses it: the content, or the error
    that stopped the reading. *)
Definition ioutil_ReadAll (r : Reader) : error + list Byte.byte :=
  match failure r with
  | Some err => inl err
  | None => inr (delivered r)
  end.

Definition normalizeScheme : string -> string := ToLower.

Definition supportedLinkSchemes : gset string :=
  {[ normalizeScheme "http"; normalizeScheme "https" ]}.

Definition isSupportedLink (host : Host) (subject : string) : bool :=
  match url_ParseRequestURI host subject with
  | inl _ => false
  | inr parsed => bool_decide (normalizeScheme (Scheme parsed) ∈ supportedLinkSchemes)
  end.

(** [resources.DeploymentProperties] as [getDeploymentTemplate] fills it. *)
Record DeploymentProperties : Type := mkDeploymentProperties {
  Template : list Byte.byte
}.

(** [getDeploymentTemplate], with the requests it had sent. *)
Definition getDeploymentTemplate (host : Host) (net : Transport) (raw : string)
  : (error + DeploymentProperties) * list Request :=
  if isSupportedLink host raw then
    let '(err, st) := downloadTemplate net [] raw in
    match err with
    | Some err => (inl err, sent st)
    | None => (inr (mkDeploymentProperties (dest st)), sent st)
    end
  else
    match os_Open host raw with
    | inl err => (inl err, [])
    | inr handle =>
      match ioutil_ReadAll handle with
      | inl err => (inl err, [])
      | inr contents => (inr (mkDeploymentProperties contents), [])
      end
    end.

(** A host that reads the scheme off the text before the first colon and
    holds one file, and a network nobody should have to ask. *)
Definition schemeOf (subject : string) : string :=
  (fix go (s : string) : string :=
     match s with
     | EmptyString => EmptyString
     | String c s' => if Ascii.eqb c ":" then EmptyString else String c (go s')
     end) subject.

Definition workstation : Host :=
  mkHost
    (fun subject =>
       if decide (subject = EmptyString) then inl (errors_New "parse: empty url")
       else inr (mkURL (schemeOf subject)))
    (fun path =>
       if decide (path = "./azuredeploy.json") then inr (mkReader templateBody None)
       else inl (errors_New "open: no such file or directory")).

Definition unplugged : Transport :=
  mkTransport (fun _ => None) (fun _ _ => inl (errors_New "dial tcp: no route to host")).

(** ** [setDefaults]: the parameter file as a source of defaults *)

Definition SiteName : string := "site-name".
Definition DatabaseTypeName : string := "db-type".
Definition DatabaseNameName : string := "db-name".
Definition DatabaseAdminName : string := "db-admin".
Definition DatabasePasswordName : string := "db-password".
Definition ImageName : string := "image".
Definition DockerRegistryAccessName : string := "docker-registry-access".
Definition DockerRegistryURLName : string := "docker-registry-url".
Definition DockerRegistryUsernameName : string := "docker-registry-username".
Definition DockerRegistryPasswordName : string := "docker-registry-password".

Section Defaults.

Context {any : Type}.

(** A [viper.Viper] with its layers: what was given for a key by [Set], a
    flag, the environment or a configuration file, and under all of them
    what [SetDefault] gave.  The functions above read through [Get] and
    write through [Set] only and see the two as one map. *)
Record Settings : Type := mkSettings {
  explicit : gmap string any;
  fallback : gmap string any
}.

(** [viper.Get]: [None] is the nil of a key nothing was given for. *)
Definition viper_Get (conf : Settings) (key : string) : option any :=
  match explicit conf !! key with
  | Some v => Some v
  | None => fallback conf !! key
  end.

(** [viper.SetDefault] *)
Definition SetDefault (conf : Settings) (key : string) (v : any) : Settings :=
  mkSettings (explicit conf) (<[key := v]> (fallback conf)).

(** One block of [setDefaults]:
    [if p, ok := params.Parameters[parameter]; ok { conf.SetDefault(key, p.Value) }]. *)
Definition defaultFrom (params : gmap string (DeploymentParameter any))
    (parameter key : string) (conf : Settings) : Settings :=
  match params !! parameter with
  | Some p => SetDefault conf key (Value p)
  | None => conf
  end.

(** [setDefaults], on the entries of [params.Parameters]. *)
Definition setDefaults (conf : Settings) (params : gmap string (DeploymentParameter any))
  : Settings :=
  let conf := defaultFrom params "name" SiteName conf in
  let conf := defaultFrom params "database" DatabaseTypeName conf in
  let conf := defaultFrom params "databaseName" DatabaseNameName conf in
  let conf := defaultFrom params "imageName" ImageName conf in
  let conf := defaultFrom params "databaseAdministratorLogin" DatabaseAdminName conf in
  let conf := defaultFrom params "dockerRegistryAccess" DockerRegistryAccessName conf in
  let conf := defaultFrom params "dockerRegistryServerURL" DockerRegistryURLName conf in
  defaultFrom params "dockerRegistryServerUsername" DockerRegistryUsernameName conf.

End Defaults.

Arguments Settings any : clear implicits.

(** The parameters [setDefaults] reads, each with the setting it is the
    default of. *)
Definition parameterSettings : list (string * string) :=
  [("name", SiteName); ("database", DatabaseTypeName);
   ("databaseName", DatabaseNameName); ("imageName", ImageName);
   ("databaseAdministratorLogin", DatabaseAdminName);
   ("dockerRegistryAccess", DockerRegistryAccessName);
   ("dockerRegistryServerURL", DockerRegistryURLName);
   ("dockerRegistryServerUsername", DockerRegistryUsernameName)].

(** ** The client secret as [init] shows it *)

Definition redactedMessage : string := "[redacted]".
Definition safeCharCount : nat := 10.

(** The text [init] computes for the default of the [--client-secret]
    flag: [rawSecret[len(rawSecret)-safeCharCount:]] is the text from
    that index to the end. *)
Definition sanitizedClientSecret (rawSecret : string) : string :=
  if decide (rawSecret = EmptyString) then EmptyString
  else if decide (safeCharCount < String.length rawSecret)%nat then
    "..." +:+ String.substring (String.length rawSecret - safeCharCount) safeCharCount rawSecret
  else redactedMessage.

(** ** The parameters [Run] deploys and the parameters it caches *)

Section RunParameters.

Context {any : Type}.

(** How a Go [string] is held as the value of a parameter. *)
Variable ofString : string -> any.

Local Notation "'let*' x ':=' m 'in' k" := (bind m (fun x => k))
  (at level 10, x pattern, m at level 100, k at level 200).

(** [deployParams.Parameters[key] = DeploymentParameter{text}] *)
Definition assignParameter (deployParams : ptr) (key text : string) : Go any unit :=
  let* d := load deployParams in
  mapassign (Parameters d) key (mkDeploymentParameter (ofString text)).

(** The ten assignments of [Run] to the parameters; the names and the
    image were read from the settings when [Run] started, the passwords
    and the registry are read here. *)
Definition Run_assignParameters (conf : Viper)
    (siteName databaseType databaseName image databaseAdmin : string)
    (deployParams : ptr) : Go any unit :=
  let* _ := assignParameter deployParams "name" siteName in
  let* _ := assignParameter deployParams "database" (ToLower databaseType) in
  let* _ := assignParameter deployParams "databaseName" databaseName in
  let* _ := assignParameter deployParams "imageName" image in
  let* _ := assignParameter deployParams "databaseAdministratorLogin" databaseAdmin in
  let* _ := assignParameter deployParams "databaseAdministratorLoginPassword"
              (GetString conf DatabasePasswordName) in
  let* _ := assignParameter deployParams "dockerRegistryAccess"
              (GetString conf DockerRegistryAccessName) in
  let* _ := assignParameter deployParams "dockerRegistryServerURL"
              (GetString conf DockerRegistryURLName) in
  let* _ := assignParameter deployParams "dockerRegistryServerUsername"
              (GetString conf DockerRegistryUsernameName) in
  assignParameter deployParams "dockerRegistryServerPassword"
    (GetString conf DockerRegistryPasswordName).

(** What [Run] hands to the cache of the parameters:
    [stripPasswords(deployParams)], after the assignments. *)
Definition Run_cachedParameters (defaults : string * string) (conf : Viper)
    (siteName databaseType databaseName image databaseAdmin : string)
    (deployParams : ptr) : Go any ptr :=
  let* _ := Run_assignParameters conf siteName databaseType databaseName image
              databaseAdmin deployParams in
  stripPasswords defaults deployParams.

End RunParameters.

(** The parameters [Run] assigns. *)
Definition assignedParameters : list string :=
  ["name"; "database"; "databaseName"; "imageName"; "databaseAdministratorLogin";
   "databaseAdministratorLoginPassword"; "dockerRegistryAccess";
   "dockerRegistryServerURL"; "dockerRegistryServerUsername";
   "dockerRegistryServerPassword"].

(** Settings of a run with both passwords and a private registry. *)
Definition privateRegistryRun : Viper :=
  {[ DatabasePasswordName := VString "MSFT+Buffalo-k3Zq";
     DockerRegistryAccessName := VString "private";
     DockerRegistryURLName := VString "https://registry.example.com";
     DockerRegistryUsernameName := VString "deployer";
     DockerRegistryPasswordName := VString "hunter2" ]}.

(* ===================================================================== *)
(** * Part II: the theorems *)
(* ===================================================================== *)

(** ** The download *)

(** The three sets of status codes, spelled out. *)
Lemma temporaryFailureCodes_spec (code : Z) :
  code ∈ temporaryFailureCodes <-> code = 408 \/ code = 429 \/ code = 504.
Proof.
  unfold temporaryFailureCodes. rewrite !elem_of_union, !elem_of_singleton.
  unfold http_StatusTooManyRequests, http_StatusGatewayTimeout, http_StatusRequestTimeout.
  tauto.
Qed.

Lemma redirectCodes_spec (code : Z) :
  code ∈ redirectCodes <-> isRedirect code.
Proof.
  unfold redirectCodes, isRedirect. rewrite !elem_of_union, !elem_of_singleton.
  unfold http_StatusMovedPermanently, http_StatusPermanentRedirect,
    http_StatusTemporaryRedirect, http_StatusSeeOther, http_StatusFound.
  tauto.
Qed.

Lemma acceptedCodes_spec (code : Z) :
  code ∈ acceptedCodes <-> code = 200.
Proof. unfold acceptedCodes. rewrite elem_of_singleton. reflexivity. Qed.

(** [download] within the depth allowed runs the loop of attempts; beyond
    it, it fails before any request. *)
Lemma download_within (net : Transport) (depth : nat) (src : string) (st : Download) :
  (depth <= maxRedirects)%nat ->
  download net depth src st =
    attempts net (fun loc st' => download net (S depth) loc st') (seq 0 maxRetries) src st.
Proof.
  intros Hle. rewrite download_equation_1.
  destruct (le_lt_dec depth maxRedirects) as [Hin|Hout]; simpl; [reflexivity | lia].
Qed.

Lemma download_beyond (net : Transport) (depth : nat) (src : string) (st : Download) :
  (maxRedirects < depth)%nat ->
  download net depth src st = (Some tooManyRedirects, st).
Proof.
  intros Hlt. rewrite download_equation_1.
  destruct (le_lt_dec depth maxRedirects) as [Hin|Hout]; simpl; [lia | reflexivity].
Qed.

(** One attempt, by the status of its answer. *)
Section Attempt.

Variable net : Transport.
Variable follow : string -> Download -> option error * Download.
Variables (src : string) (st : Download) (resp : Response).
Variables (attempt : nat) (remaining : list nat).
Hypothesis Hparse : url_Parse net src = None.
Hypothesis Hanswer : RoundTrip net (sent st) (GET src) = inr resp.

Let st' : Download := mkDownload (sent st ++ [GET src]) (dest st).

Lemma attempt_accepted :
  StatusCode resp = 200 ->
  attempts net follow (attempt :: remaining) src st =
    (failure (Body resp),
     mkDownload (sent st ++ [GET src]) (dest st ++ delivered (Body resp))).
Proof.
  intros Hcode. simpl. unfold http_NewRequest. rewrite Hparse.
  unfold http_Do. fold (GET src). rewrite Hanswer.
  destruct (decide (StatusCode resp ∈ acceptedCodes)) as [_|Hn].
  - reflexivity.
  - exfalso. apply Hn, acceptedCodes_spec, Hcode.
Qed.

Lemma attempt_redirect :
  isRedirect (StatusCode resp) ->
  attempts net follow (attempt :: remaining) src st =
    follow (Header_Get (Header resp) "Location") st'.
Proof.
  intros Hcode. simpl. unfold http_NewRequest. rewrite Hparse.
  unfold http_Do. fold (GET src). rewrite Hanswer.
  destruct (decide (StatusCode resp ∈ acceptedCodes)) as [Ha|_].
  - apply acceptedCodes_spec in Ha. unfold isRedirect in Hcode. lia.
  - destruct (decide (StatusCode resp ∈ redirectCodes)) as [_|Hn]; [reflexivity|].
    exfalso. apply Hn, redirectCodes_spec, Hcode.
Qed.

Lemma attempt_temporary :
  StatusCode resp ∈ temporaryFailureCodes ->
  attempts net follow (attempt :: remaining) src st =
    attempts net follow remaining src st'.
Proof.
  intros Hcode. simpl. unfold http_NewRequest. rewrite Hparse.
  unfold http_Do. fold (GET src). rewrite Hanswer.
  pose proof (proj1 (temporaryFailureCodes_spec _) Hcode) as Hc.
  destruct (decide (StatusCode resp ∈ acceptedCodes)) as [Ha|_].
  - apply acceptedCodes_spec in Ha. lia.
  - destruct (decide (StatusCode resp ∈ redirectCodes)) as [Hr|_].
    + apply redirectCodes_spec in Hr. unfold isRedirect in Hr. lia.
    + destruct (decide (StatusCode resp ∈ temporaryFailureCodes)); [reflexivity | contradiction].
Qed.

Lemma attempt_unexpected :
  StatusCode resp <> 200 -> ~ isRedirect (StatusCode resp) ->
  StatusCode resp ∉ temporaryFailureCodes ->
  attempts net follow (attempt :: remaining) src st =
    (Some (unexpectedStatus (StatusCode resp)), st').
Proof.
  intros Hok Hred Htmp. simpl. unfold http_NewRequest. rewrite Hparse.
  unfold http_Do. fold (GET src). rewrite Hanswer.
  destruct (decide (StatusCode resp ∈ acceptedCodes)) as [Ha|_].
  - apply acceptedCodes_spec in Ha. contradiction.
  - destruct (decide (StatusCode resp ∈ redirectCodes)) as [Hr|_].
    + apply redirectCodes_spec in Hr. contradiction.
    + destruct (decide (StatusCode resp ∈ temporaryFailureCodes)); [contradiction | reflexivity].
Qed.

End Attempt.

(** A run of temporary failures at one hop uses up as many attempts, each
    a request for the same URL, and leaves the rest of the loop to run. *)
Lemma attempts_temporary_run (net : Transport)
    (follow : string -> Download -> option error * Download) (src : string)
    (codes : list Z) :
  url_Parse net src = None ->
  Forall (fun code => code ∈ temporaryFailureCodes) codes ->
  forall (remaining : list nat) (st : Download),
    answered net (sent st) src codes ->
    (length codes <= length remaining)%nat ->
    attempts net follow remaining src st =
      attempts net follow (drop (length codes) remaining) src
        (mkDownload (sent st ++ replicate (length codes) (GET src)) (dest st)).
Proof.
  intros Hparse Hcodes. induction Hcodes as [|code codes Hcode _ IH]; intros remaining st Hans Hlen.
  - simpl. rewrite app_nil_r. destruct st; reflexivity.
  - destruct remaining as [|attempt remaining]; [simpl in Hlen; lia|].
    destruct (Hans 0%nat code eq_refl) as (resp & Hresp & Hstatus).
    simpl in Hresp. rewrite app_nil_r in Hresp.
    rewrite (attempt_temporary net follow src st resp attempt remaining Hparse Hresp)
      by (rewrite Hstatus; exact Hcode).
    rewrite IH; simpl.
    + rewrite <- app_assoc. reflexivity.
    + intros k c Hk. destruct (Hans (S k) c Hk) as (r & Hr & Hs).
      exists r. split; [|exact Hs]. rewrite <- app_assoc. exact Hr.
    + simpl in Hlen. lia.
Qed.

(** A chain of redirects is followed hop by hop, one level deeper each,
    as long as every hop is asked for within the depth allowed. *)
Lemma download_redirected (net : Transport) (hops : list Response) :
  forall (depth : nat) (src : string) (st : Download),
    redirected net (sent st) src hops ->
    (depth + length hops <= S maxRedirects)%nat ->
    download net depth src st =
      download net (depth + length hops) (target src hops)
        (mkDownload (sent st ++ visited src hops) (dest st)).
Proof.
  induction hops as [|resp hops IH]; intros depth src st Hred Hdepth.
  - simpl. rewrite Nat.add_0_r, app_nil_r. destruct st; reflexivity.
  - destruct Hred as (Hparse & Hresp & Hcode & Hrest). simpl in Hdepth.
    rewrite download_within by lia. unfold maxRetries. simpl seq.
    rewrite (attempt_redirect net _ src st resp _ _ Hparse Hresp Hcode).
    rewrite IH; simpl.
    + rewrite <- app_assoc, Nat.add_succ_r. reflexivity.
    + exact Hrest.
    + lia.
Qed.

(** C1 (as amended): for every status code among 408, 429 and 504, the
    codes of [temporaryFailureCodes], the download retries the same hop:
    after a run of such answers the loop goes on with the attempts that
    are left, asking for the same URL at the same depth, and when all
    [maxRetries] = 3 attempts of the hop are answered so it fails with
    "too many attempts", having sent exactly three requests for that URL. *)
Theorem temporary_failure_retries_same_hop (net : Transport) (depth : nat)
    (src : string) (st : Download) (codes : list Z) :
  (depth <= maxRedirects)%nat ->
  url_Parse net src = None ->
  Forall (fun code => code = 408 \/ code = 429 \/ code = 504) codes ->
  answered net (sent st) src codes ->
  (length codes <= maxRetries)%nat ->
  let st' := mkDownload (sent st ++ replicate (length codes) (GET src)) (dest st) in
  download net depth src st =
    attempts net (fun loc s => download net (S depth) loc s)
      (seq (length codes) (maxRetries - length codes)) src st'
  /\ (length codes = maxRetries ->
      download net depth src st = (Some tooManyAttempts, st')).
Proof.
  intros Hdepth Hparse Hcodes Hans Hlen st'.
  assert (Hrun : download net depth src st =
    attempts net (fun loc s => download net (S depth) loc s)
      (seq (length codes) (maxRetries - length codes)) src st').
  { rewrite download_within by exact Hdepth.
    rewrite (attempts_temporary_run net _ src codes Hparse).
    - rewrite drop_seq. reflexivity.
    - eapply Forall_impl; [exact Hcodes|]. intros code Hc.
      apply temporaryFailureCodes_spec, Hc.
    - exact Hans.
    - rewrite length_seq. exact Hlen. }
  split; [exact Hrun|].
  intros Hall. rewrite Hrun, Hall, Nat.sub_diag. reflexivity.
Qed.

(** ** The redirects the client follows *)

Lemma followedCodes_spec (code : Z) :
  code ∈ followedCodes <-> isRedirect code.
Proof.
  unfold followedCodes, isRedirect. rewrite !elem_of_union, !elem_of_singleton. tauto.
Qed.

(** A chain of redirects within what the policy allows is followed to
    its end inside [Do]. *)
Lemma Client_follow_chain (srv : Server) (locations : list string) :
  forall (allowed : nat) (url : string),
    redirecting srv url locations ->
    (length locations <= allowed)%nat ->
    Client_follow srv allowed url =
      Client_follow srv (allowed - length locations) (arrival url locations).
Proof.
  induction locations as [|loc rest IH]; intros allowed url Hchain Hlen.
  - simpl. rewrite Nat.sub_0_r. reflexivity.
  - destruct Hchain as (resp & Hresp & Hcode & Hloc & Hne & Hrest).
    destruct allowed as [|allowed]; [simpl in Hlen; lia|].
    cbn [Client_follow]. rewrite Hresp.
    destruct (decide (StatusCode resp ∈ followedCodes)); [|contradiction].
    cbn zeta. rewrite Hloc.
    destruct (decide (loc = EmptyString)); [contradiction|].
    rewrite (IH allowed loc Hrest) by (simpl in Hlen; lia).
    reflexivity.
Qed.

(** A chain longer than the policy allows ends in the error of the
    policy. *)
Lemma Client_follow_refused (srv : Server) (locations : list string) :
  forall (allowed : nat) (url : string),
    redirecting srv url locations ->
    (allowed < length locations)%nat ->
    Client_follow srv allowed url = inl stoppedAfter10Redirects.
Proof.
  induction locations as [|loc rest IH]; intros allowed url Hchain Hlen.
  - simpl in Hlen. lia.
  - destruct Hchain as (resp & Hresp & Hcode & Hloc & Hne & Hrest).
    destruct allowed as [|allowed]; cbn [Client_follow]; rewrite Hresp;
      (destruct (decide (StatusCode resp ∈ followedCodes)); [|contradiction]);
      cbn zeta; rewrite Hloc;
      (destruct (decide (loc = EmptyString)); [contradiction|]).
    + reflexivity.
    + apply IH; [exact Hrest | simpl in Hlen; lia].
Qed.

(** What the client hands back as a redirect has no [Location]. *)
Lemma Client_follow_hands_back (srv : Server) (allowed : nat) :
  forall (url : string) (resp : Response),
    Client_follow srv allowed url = inr resp ->
    StatusCode resp ∈ followedCodes ->
    Header_Get (Header resp) "Location" = EmptyString.
Proof.
  induction allowed as [|allowed IH]; intros url resp; cbn [Client_follow];
    destruct (srv url) as [err|answered]; try discriminate;
    (destruct (decide (StatusCode answered ∈ followedCodes)) as [Hin|Hout];
     [|intros Heq Hcode; injection Heq as ->; contradiction]);
    cbn zeta;
    (destruct (decide (Header_Get (Header answered) "Location" = EmptyString)) as [Hloc|Hloc];
     [intros Heq _; injection Heq as <-; exact Hloc|]).
  - discriminate.
  - apply IH.
Qed.

(** The default client in front of any server answers as
    [asDefaultClient] says. *)
Lemma defaultClient_asDefaultClient (parse : string -> option error) (srv : Server) :
  asDefaultClient (defaultClient parse srv).
Proof.
  split.
  - intros before req resp. cbn [RoundTrip defaultClient]. unfold http_DefaultClient_Do.
    destruct (decide (URL req = EmptyString)); [discriminate|].
    intros Hresp Hcode. eapply Client_follow_hands_back; [exact Hresp|].
    apply followedCodes_spec, redirectCodes_spec, Hcode.
  - intros before. exists unsupportedScheme. reflexivity.
Qed.

(** C3 (the code against the claim): the redirects of a server never
    reach the depth the download counts.  The request goes through the
    default client, which follows a redirect with a [Location] inside
    [Do]: when a server redirects up to nine times in a row, by whichever
    of the codes 301, 302, 303, 307 and 308, and then answers 200, the
    download makes one call of [Do] at depth 1 and copies that body, also
    when the redirects are more than [maxRedirects] = 5; and when the
    server redirects more often than that, the download fails with the
    error of the client, "stopped after 10 redirects", and not with "too
    many redirects". *)
Theorem client_redirects_pass_maxRedirects (parse : string -> option error)
    (srv : Server) (buffer : list Byte.byte) (src : string) (locations : list string) :
  src <> EmptyString ->
  parse src = None ->
  redirecting srv src locations ->
  let net := defaultClient parse srv in
  (forall final : Response,
     (length locations <= 9)%nat ->
     srv (arrival src locations) = inr final ->
     StatusCode final = 200 ->
     downloadTemplate net buffer src =
       (failure (Body final),
        mkDownload [GET src] (buffer ++ delivered (Body final))))
  /\ ((9 < length locations)%nat ->
      downloadTemplate net buffer src =
        (Some stoppedAfter10Redirects, mkDownload [GET src] buffer)).
Proof.
  intros Hsrc Hparse Hchain net. split.
  - intros final Hlen Hfinal Hcode.
    assert (Hdo : RoundTrip net [] (GET src) = inr final).
    { cbn [RoundTrip net defaultClient]. unfold http_DefaultClient_Do. cbn [URL GET].
      destruct (decide (src = EmptyString)); [contradiction|].
      rewrite (Client_follow_chain srv locations 9 src Hchain Hlen).
      destruct (9 - length locations)%nat; cbn [Client_follow]; rewrite Hfinal;
        (destruct (decide (StatusCode final ∈ followedCodes)) as [Hin|_]; [|reflexivity]);
        apply followedCodes_spec in Hin; unfold isRedirect in Hin; lia. }
    unfold downloadTemplate. rewrite download_within by (unfold maxRedirects; lia).
    unfold maxRetries. cbn [seq].
    apply (attempt_accepted net _ src (mkDownload [] buffer) final _ _ Hparse Hdo Hcode).
  - intros Hlen.
    assert (Hdo : RoundTrip net [] (GET src) = inl stoppedAfter10Redirects).
    { cbn [RoundTrip net defaultClient]. unfold http_DefaultClient_Do. cbn [URL GET].
      destruct (decide (src = EmptyString)); [contradiction|].
      apply (Client_follow_refused srv locations 9 src Hchain Hlen). }
    unfold downloadTemplate. rewrite download_within by (unfold maxRedirects; lia).
    unfold maxRetries. cbn [seq attempts]. unfold http_NewRequest.
    change (url_Parse net src) with (parse src). rewrite Hparse.
    unfold http_Do. fold (GET src). cbn [sent]. rewrite Hdo. reflexivity.
Qed.

(** C4 (as amended): for every response with status code 200, the one
    code of [acceptedCodes], the download copies the body to the
    destination and returns what the copy returned, success when the body
    was read to its end; so a fetch answered with fewer than five
    redirects in a row, one 302 among them, and then a 200 yields the
    destination followed by the final body, unchanged. *)
Theorem accepted_response_is_copied (net : Transport)
    (follow : string -> Download -> option error * Download)
    (attempt : nat) (remaining : list nat)
    (src : string) (st : Download) (resp : Response) :
  url_Parse net src = None ->
  RoundTrip net (sent st) (GET src) = inr resp ->
  StatusCode resp = 200 ->
  let copied :=
    (failure (Body resp),
     mkDownload (sent st ++ [GET src]) (dest st ++ delivered (Body resp))) in
  attempts net follow (attempt :: remaining) src st = copied
  /\ (forall depth : nat, (depth <= maxRedirects)%nat ->
        download net depth src st = copied)
  /\ (forall (origin : string) (hops : list Response),
        redirected net [] origin hops ->
        (length hops < maxRedirects)%nat ->
        target origin hops = src ->
        sent st = visited origin hops ->
        downloadTemplate net (dest st) origin = copied).
Proof.
  intros Hparse Hresp Hcode copied. repeat split.
  - apply attempt_accepted; assumption.
  - intros depth Hdepth. rewrite download_within by exact Hdepth.
    apply attempt_accepted; assumption.
  - intros origin hops Hred Hlen Htarget Hsent. unfold downloadTemplate.
    rewrite (download_redirected net hops 1 origin (mkDownload [] (dest st)) Hred)
      by (simpl; lia).
    cbn [sent dest app]. rewrite <- Hsent, Htarget.
    replace (mkDownload (sent st) (dest st)) with st by (destruct st; reflexivity).
    rewrite download_within by (simpl; lia).
    apply attempt_accepted; assumption.
Qed.

(** Three temporary failures at the first hop: three requests for the
    same link, then "too many attempts". *)
Lemma temporary_failure_retries_same_hop_witness :
  download threeFailures 1 templateLink (mkDownload [] []) =
    (Some (errorString "too many attempts"),
     mkDownload [GET templateLink; GET templateLink; GET templateLink] []).
Proof.
  apply (proj2 (temporary_failure_retries_same_hop threeFailures 1 templateLink
                  (mkDownload [] []) [429; 408; 504]
                  ltac:(unfold maxRedirects; lia)
                  eq_refl
                  ltac:(repeat constructor; lia)
                  ltac:(intros [|[|[|k]]] code Hk; simpl in Hk; inversion Hk;
                        eexists; split; reflexivity)
                  ltac:(unfold maxRetries; simpl; lia))).
  reflexivity.
Defined.

(** A 502 is answered by an immediate failure: one request, no retry,
    although the next attempt would have been served. *)
Lemma status_502_is_not_retried :
(502 ∉ temporaryFailureCodes)
  /\ downloadTemplate (scripted [answer 502 "" []; answer 200 "" templateBody]) [] templateLink =
       (Some (errorString "unexpected status code: 502"), mkDownload [GET templateLink] []).
Proof.
  split.
  - rewrite temporaryFailureCodes_spec. lia.
  - reflexivity.
Qed.

(** Six redirects and then a 200: one call of [Do], and the body in the
    buffer. *)
Lemma client_redirects_pass_maxRedirects_witness :
  (maxRedirects < 6)%nat
  /\ downloadTemplate (defaultClient (fun _ => None) sixRedirects) [] "http://a" =
       (None, mkDownload [GET "http://a"] templateBody).
Proof.
  split; [unfold maxRedirects; lia|].
  assert (Hsrc : "http://a" <> EmptyString) by discriminate.
  assert (Hchain : redirecting sixRedirects "http://a"
                     ["http://b"; "http://c"; "http://d"; "http://e"; "http://f"; "http://g"]).
  { repeat (eexists; split; [reflexivity|];
            split; [apply followedCodes_spec; unfold isRedirect; simpl; lia|];
            split; [reflexivity|]; split; [discriminate|]).
    exact I. }
  exact (proj1 (client_redirects_pass_maxRedirects (fun _ => None) sixRedirects []
                  "http://a" _ Hsrc eq_refl Hchain)
           (answer 200 "" templateBody) ltac:(simpl; lia) eq_refl eq_refl).
Defined.

(** One 302 and then a 200: two requests, and the body in the buffer. *)
Lemma accepted_response_is_copied_witness :
  downloadTemplate movedOnce [] "http://a" =
    (None, mkDownload [GET "http://a"; GET "http://b"] templateBody).
Proof.
  apply (proj2 (proj2 (accepted_response_is_copied movedOnce
                  (fun _ st => (None, st)) 0%nat [] "http://b"
                  (mkDownload [GET "http://a"] []) (answer 200 "" templateBody)
                  eq_refl eq_refl eq_refl))
           "http://a" [answer 302 "http://b" []]).
  - simpl. unfold isRedirect. repeat split; lia.
  - unfold maxRedirects. simpl. lia.
  - reflexivity.
  - reflexivity.
Defined.

(** A 201 is a 2xx code and is not accepted: nothing is copied. *)
Lemma status_201_is_not_accepted :
(201 ∉ acceptedCodes)
  /\ downloadTemplate (scripted [answer 201 "" templateBody]) [] templateLink =
       (Some (errorString "unexpected status code: 201"), mkDownload [GET templateLink] []).
Proof.
  split.
  - rewrite acceptedCodes_spec. lia.
  - reflexivity.
Qed.

(** ** Tenant discovery *)

(** [EqualFold] holds exactly when the two texts are equal once both are
    put in lower case. *)
Lemma EqualFold_ToLower (s t : string) :
  EqualFold s t = true <-> ToLower s = ToLower t.
Proof.
  revert t. induction s as [|a s IH]; intros [|b t]; simpl; try (split; congruence).
  rewrite andb_true_iff, IH, Ascii.eqb_eq. split.
  - intros [-> ->]. reflexivity.
  - intros Heq. injection Heq as Hc Hs. split; assumption.
Qed.

(** Subscriptions that do not match are compared one by one and the
    loop goes on behind them; at the first that matches it returns. *)
Lemma subscriptionLoop_passed (subscription tenant : string)
    (subs : list Subscription) (rest : Listing Subscription) :
  Forall (fun sub => subscriptionMatches subscription sub = false) subs ->
  subscriptionLoop subscription tenant (Listing_app subs rest) =
    ((subscriptionLoop subscription tenant rest).1,
     map (CallCompare tenant) subs ++ (subscriptionLoop subscription tenant rest).2).
Proof.
  induction 1 as [|sub subs Hsub _ IH]; simpl.
  - destruct (subscriptionLoop subscription tenant rest); reflexivity.
  - rewrite Hsub, IH. reflexivity.
Qed.

Lemma subscriptionLoop_matched (subscription tenant : string)
    (skipped : list Subscription) (sub : Subscription) (rest : Listing Subscription) :
  Forall (fun sub => subscriptionMatches subscription sub = false) skipped ->
  subscriptionMatches subscription sub = true ->
  subscriptionLoop subscription tenant (Listing_app (skipped ++ [sub]) rest) =
    (Matched, map (CallCompare tenant) (skipped ++ [sub])).
Proof.
  intros Hskipped Hsub.
  assert (Happ : Listing_app (skipped ++ [sub]) rest =
                 Listing_app skipped (ListItem sub rest)).
  { clear. induction skipped as [|s skipped IH]; simpl; [reflexivity | rewrite IH; reflexivity]. }
  rewrite Happ, subscriptionLoop_passed by exact Hskipped.
  simpl. rewrite Hsub. simpl. rewrite map_app. reflexivity.
Qed.

(** One pass of the outer loop over a tenant whose token is built. *)
Lemma tenantLoop_minted (az : Azure) (common : Token) (subscription : string)
    (t : TenantIDDescription) (tenant : string) (rest : Listing TenantIDDescription)
    (conf : Viper) :
  TenantID t = Some tenant ->
  minted az common tenant ->
  tenantLoop az common subscription (ListItem t rest) conf =
    let auth := tenantAuthorizer az common tenant in
    let scan := subscriptionLoop subscription tenant (Subscriptions az auth) in
    let here := CallTokenFromManualToken tenant :: CallListSubscriptions auth :: scan.2 in
    match scan.1 with
    | Matched => (Return (tenant, auth), Set_ conf TenantIDName (VString tenant), here)
    | Ended _ =>
      let next := tenantLoop az common subscription rest conf in
      (next.1.1, next.1.2, here ++ next.2)
    end.
Proof.
  intros Hid [Hconfig Htoken]. simpl. rewrite Hid.
  unfold adal_NewOAuthConfig. rewrite Hconfig.
  unfold adal_NewServicePrincipalTokenFromManualToken. rewrite Htoken.
  fold (tenantAuthorizer az common tenant).
  destruct (subscriptionLoop subscription tenant
              (Subscriptions az (tenantAuthorizer az common tenant))) as [[|err] compared];
    simpl; [reflexivity|].
  destruct (tenantLoop az common subscription rest conf) as [[out conf'] calls].
  reflexivity.
Qed.

(** Tenants without the subscription are passed over one after the other,
    each scanned once, and the loop goes on behind them. *)
Lemma tenantLoop_passed (az : Azure) (common : Token) (subscription : string)
    (entries : list (string * list Subscription)) (rest : Listing TenantIDDescription)
    (conf : Viper) :
  Forall (passedOver az common subscription) entries ->
  tenantLoop az common subscription (Listing_app (tenantsOf entries) rest) conf =
    let next := tenantLoop az common subscription rest conf in
    (next.1.1, next.1.2,
     concat (map (fun entry => scanned az common entry.1 entry.2) entries) ++ next.2).
Proof.
  induction 1 as [|[tenant subs] entries (Hminted & Hsubs & Hnone) _ IH].
  - simpl. destruct (tenantLoop az common subscription rest conf) as [[out conf'] calls].
    reflexivity.
  - cbn [tenantsOf map Listing_app fst snd] in *.
    rewrite (tenantLoop_minted az common subscription _ tenant) by (reflexivity || assumption).
    cbn zeta. rewrite Hsubs. unfold Listing_of.
    rewrite subscriptionLoop_passed by exact Hnone.
    fold (tenantsOf entries). rewrite IH. simpl. rewrite app_nil_r.
    unfold scanned. simpl. rewrite <- app_assoc. reflexivity.
Qed.

(** C5: tenant discovery compares each subscription it sees with the
    target by a case-insensitive exact match; when tenants without the
    target are followed by one whose listing reaches the target, it
    returns that tenant and its authorizer, and its last call is the
    comparison that matched: nothing behind the match is listed or
    compared; when no error occurs and no subscription of any tenant
    matches, it fails with "unable to find subscription", having scanned
    every tenant and every subscription once, in order. *)
Theorem getTenant_first_match_or_not_found (az : Azure) (conf : Viper)
    (common : Token) (subscription : string)
    (entries : list (string * list Subscription)) :
  Forall (passedOver az common subscription) entries ->
  let tenants_Authorizer := NewBearerAuthorizer (DeviceToken common) in
  let passed := concat (map (fun entry => scanned az common entry.1 entry.2) entries) in
  (Tenants az tenants_Authorizer = Listing_of (tenantsOf entries) ->
   getTenant az conf common subscription =
     (Fail (subscriptionNotFound subscription), conf,
      CallListTenants tenants_Authorizer :: passed))
  /\ (forall (tenant : string) (skipped : list Subscription) (sub : Subscription)
        (restSubs : Listing Subscription) (restTenants : Listing TenantIDDescription),
        Tenants az tenants_Authorizer =
          Listing_app (tenantsOf entries) (ListItem (mkTenant (Some tenant)) restTenants) ->
        minted az common tenant ->
        Subscriptions az (tenantAuthorizer az common tenant) =
          Listing_app (skipped ++ [sub]) restSubs ->
        Forall (fun sub' => subscriptionMatches subscription sub' = false) skipped ->
        subscriptionMatches subscription sub = true ->
        getTenant az conf common subscription =
          (Return (tenant, tenantAuthorizer az common tenant),
           Set_ conf TenantIDName (VString tenant),
           CallListTenants tenants_Authorizer
             :: passed ++ scanned az common tenant (skipped ++ [sub])))
  /\ (forall sub : Subscription,
        subscriptionMatches subscription sub = true <->
        exists id, SubscriptionID sub = Some id /\ ToLower id = ToLower subscription).
Proof.
  intros Hpassed tenants_Authorizer passed. repeat split.
  - intros Htenants. unfold getTenant. fold tenants_Authorizer.
    rewrite Htenants. unfold Listing_of.
    rewrite tenantLoop_passed by exact Hpassed.
    simpl. fold passed. rewrite app_nil_r. reflexivity.
  - intros tenant skipped sub restSubs restTenants Htenants Hminted Hsubs Hskipped Hsub.
    unfold getTenant. fold tenants_Authorizer. rewrite Htenants.
    rewrite tenantLoop_passed by exact Hpassed.
    rewrite (tenantLoop_minted az common subscription _ tenant) by (reflexivity || assumption).
    cbn zeta. rewrite Hsubs, subscriptionLoop_matched by assumption.
    simpl. reflexivity.
  - unfold subscriptionMatches. destruct (SubscriptionID sub) as [id|].
    + intros Hfold. exists id. split; [reflexivity|]. apply EqualFold_ToLower, Hfold.
    + discriminate.
  - intros (id & Hid & Hlower). unfold subscriptionMatches. rewrite Hid.
    apply EqualFold_ToLower, Hlower.
Qed.

(** Two tenants, the target under the second: the first is scanned to
    its end, the second up to the match, and what lies behind the match
    (a listing that fails) is never read. *)
Lemma getTenant_first_match_or_not_found_witness :
  getTenant twoTenants ∅ someToken targetSubscription =
    (Return ("tenant-2", tenantAuthorizer twoTenants someToken "tenant-2"),
     {[ TenantIDName := VString "tenant-2" ]},
     [CallListTenants (NewBearerAuthorizer (DeviceToken someToken));
      CallTokenFromManualToken "tenant-1";
      CallListSubscriptions (tenantAuthorizer twoTenants someToken "tenant-1");
      CallCompare "tenant-1" (mkSubscription (Some "11111111-0000-4000-8000-000000000001"));
      CallCompare "tenant-1" (mkSubscription None);
      CallTokenFromManualToken "tenant-2";
      CallListSubscriptions (tenantAuthorizer twoTenants someToken "tenant-2");
      CallCompare "tenant-2" (mkSubscription (Some "22222222-0000-4000-8000-000000000002"));
      CallCompare "tenant-2" (mkSubscription (Some "0A1B2C3D-0000-4000-8000-00000000BEEF"))]).
Proof.
  apply (proj1 (proj2 (getTenant_first_match_or_not_found twoTenants ∅ someToken
                  targetSubscription [("tenant-1", otherSubscriptions)]
                  ltac:(repeat constructor)))
           "tenant-2"
           [mkSubscription (Some "22222222-0000-4000-8000-000000000002")]
           (mkSubscription (Some "0A1B2C3D-0000-4000-8000-00000000BEEF"))
           (ListError (errors_New "subscriptions: next page failed"))
           (ListError (errors_New "tenants: next page failed"))).
  - reflexivity.
  - split; reflexivity.
  - reflexivity.
  - repeat constructor.
  - reflexivity.
Defined.

(** An error of [adal] while the token of a tenant is built is returned
    at once: the tenant is not scanned and no later tenant is looked at. *)
Lemma token_error_is_returned (az : Azure) (common : Token) (subscription : string)
    (t : TenantIDDescription) (tenant : string) (rest : Listing TenantIDDescription)
    (conf : Viper) (err : error) :
  TenantID t = Some tenant ->
  OAuthConfig_refused az (ActiveDirectoryEndpoint az) tenant = Some err
  \/ (OAuthConfig_refused az (ActiveDirectoryEndpoint az) tenant = None
      /\ ManualToken_refused az (mkOAuthConfig (ActiveDirectoryEndpoint az) tenant)
           deviceClientID (ResourceManagerEndpoint az)
           (mkToken EmptyString (RefreshToken common)) = Some err) ->
  (tenantLoop az common subscription (ListItem t rest) conf).1 = (Fail err, conf).
Proof.
  intros Hid [Hconfig | [Hconfig Htoken]]; simpl; rewrite Hid;
    unfold adal_NewOAuthConfig; rewrite Hconfig; [reflexivity|].
  unfold adal_NewServicePrincipalTokenFromManualToken. rewrite Htoken. reflexivity.
Qed.

(** The inner loop compares the same subscriptions whether the listing
    fails or ends at that place; only the [err] it stops on differs. *)
Lemma subscriptionLoop_forget (subscription tenant : string) (l : Listing Subscription) :
  subscriptionLoop subscription tenant (Listing_forget l) =
    (match (subscriptionLoop subscription tenant l).1 with
     | Matched => Matched
     | Ended _ => Ended None
     end,
     (subscriptionLoop subscription tenant l).2).
Proof.
  induction l as [|sub rest IH|err]; simpl; try reflexivity.
  destruct (subscriptionMatches subscription sub); [reflexivity|].
  rewrite IH. destruct (subscriptionLoop subscription tenant rest) as [[|e] calls]; reflexivity.
Qed.

(** [getTenant] cannot tell a subscription listing that failed from one
    that ended: the error the inner loop stops on is read by nothing. *)
Lemma getTenant_forgets_listing_errors (az : Azure) (conf : Viper) (common : Token)
    (subscription : string) :
  getTenant az conf common subscription = getTenant (forgetting az) conf common subscription.
Proof.
  unfold getTenant. cbn [Tenants forgetting].
  generalize (Tenants az (NewBearerAuthorizer (DeviceToken common))) as l.
  assert (Hloop : forall l,
    tenantLoop az common subscription l conf =
    tenantLoop (forgetting az) common subscription l conf).
  { induction l as [|t rest IH|err]; simpl; try reflexivity.
    destruct (TenantID t) as [tenant|]; [|reflexivity].
    unfold adal_NewOAuthConfig, adal_NewServicePrincipalTokenFromManualToken. simpl.
    destruct (OAuthConfig_refused az _ tenant); [reflexivity|].
    destruct (ManualToken_refused az _ _ _ _); [reflexivity|].
    rewrite subscriptionLoop_forget.
    destruct (subscriptionLoop subscription tenant _) as [[|e] calls]; simpl; [reflexivity|].
    rewrite IH. reflexivity. }
  intros l. rewrite Hloop. reflexivity.
Qed.

(** C2, on the code: when listing the subscriptions of a tenant fails,
    [getTenant] does not return that error.  It goes on with the next
    tenant and returns the match found there, and when no tenant is left
    it reports "unable to find subscription". *)
Theorem subscription_listing_error_is_dropped :
  getTenant firstListingFails ∅ someToken targetSubscription =
    (Return ("tenant-2", tenantAuthorizer firstListingFails someToken "tenant-2"),
     {[ TenantIDName := VString "tenant-2" ]},
     [CallListTenants (NewBearerAuthorizer (DeviceToken someToken));
      CallTokenFromManualToken "tenant-1";
      CallListSubscriptions (tenantAuthorizer firstListingFails someToken "tenant-1");
      CallTokenFromManualToken "tenant-2";
      CallListSubscriptions (tenantAuthorizer firstListingFails someToken "tenant-2");
      CallCompare "tenant-2" (mkSubscription (Some targetSubscription))])
  /\ getTenant onlyListingFails ∅ someToken targetSubscription =
    (Fail (errorString "unable to find subscription: 0a1b2c3d-0000-4000-8000-00000000beef"),
     ∅,
     [CallListTenants (NewBearerAuthorizer (DeviceToken someToken));
      CallTokenFromManualToken "tenant-1";
      CallListSubscriptions (tenantAuthorizer onlyListingFails someToken "tenant-1")]).
Proof. split; reflexivity. Qed.

(** ** Credentials *)

(** C9: with service-principal authentication (device authentication is
    not selected) and a tenant that is not given, hence "common",
    [getAuthorizer] fails with "tenant inference unsupported with Service
    Principal authentication"; it makes no call at all, so no tenant is
    looked for and no token is asked for, and the configuration is left
    as it was.  The OAuth configuration for "common" is taken to be one
    that [adal] builds, as it is for the endpoints of every named
    environment. *)
Theorem service_principal_needs_tenant (az : Azure) (conf : Viper)
    (subscriptionID clientID clientSecret tenantID : string) :
  GetBool conf DeviceAuthName = false ->
  tenantID = EmptyString \/ tenantID = commonTenant ->
  OAuthConfig_refused az (ActiveDirectoryEndpoint az) commonTenant = None ->
  getAuthorizer az conf subscriptionID clientID clientSecret tenantID =
    (Fail tenantInferenceUnsupported, conf, []).
Proof.
  intros Hdevice Htenant Hconfig. unfold getAuthorizer.
  assert (Hcommon : (if decide (tenantID = EmptyString) then commonTenant else tenantID)
                    = commonTenant).
  { destruct Htenant as [-> | ->]; reflexivity. }
  rewrite Hcommon. unfold adal_NewOAuthConfig. rewrite Hconfig, Hdevice.
  destruct (decide (commonTenant = commonTenant)); [reflexivity | contradiction].
Qed.

(** A service principal with its secret and no tenant. *)
Lemma service_principal_needs_tenant_witness :
  getAuthorizer publicCloud servicePrincipalRun targetSubscription "6f1c0a52-app" "s3cret" "" =
    (Fail (errorString "tenant inference unsupported with Service Principal authentication"),
     servicePrincipalRun, []).
Proof.
  assert (Hdevice : GetBool servicePrincipalRun DeviceAuthName = false)
    by (vm_compute; reflexivity).
  exact (service_principal_needs_tenant publicCloud servicePrincipalRun
           targetSubscription "6f1c0a52-app" "s3cret" ""
           Hdevice (or_introl eq_refl) eq_refl).
Defined.

(** C8 (as amended): when a subscription is given and exactly one of the
    client ID and the client secret is, [provisionCmd.Args] fails with
    "--client-id and --client-secret must be specified together or not at
    all"; the rest of [Args] is not reached, [Run] does not start, and no
    call is made. *)
Theorem incomplete_credentials_rejected
    (tail : Viper -> Viper * option error) (run : Viper -> list Call) (conf : Viper) :
  GetString conf SubscriptionName <> EmptyString ->
  (GetString conf ClientIDName <> EmptyString /\ GetString conf ClientSecretName = EmptyString)
  \/ (GetString conf ClientIDName = EmptyString /\ GetString conf ClientSecretName <> EmptyString) ->
  provisionCmd_Args tail conf = (conf, Some incompleteCredentials)
  /\ execute (provisionCmd_Args tail) run conf = (Some incompleteCredentials, []).
Proof.
  intros Hsub Hone.
  assert (Hargs : provisionCmd_Args tail conf = (conf, Some incompleteCredentials)).
  { unfold provisionCmd_Args.
    destruct (decide (GetString conf SubscriptionName = EmptyString)); [contradiction|].
    destruct Hone as [[Hid Hsecret] | [Hid Hsecret]].
    - rewrite (bool_decide_eq_true_2 _ Hid).
      rewrite bool_decide_eq_false_2 by (intros Hn; apply Hn, Hsecret).
      reflexivity.
    - rewrite (bool_decide_eq_true_2 _ Hsecret).
      rewrite bool_decide_eq_false_2 by (intros Hn; apply Hn, Hid).
      reflexivity. }
  split; [exact Hargs|]. unfold execute. rewrite Hargs. reflexivity.
Qed.

(** A subscription and a client ID, no client secret. *)
Lemma incomplete_credentials_rejected_witness :
  execute (provisionCmd_Args acceptAll) deviceLogin clientIDOnly =
    (Some (errorString
             "--client-id and --client-secret must be specified together or not at all"),
     []).
Proof.
  assert (Hsub : GetString clientIDOnly SubscriptionName <> EmptyString)
    by (vm_compute; discriminate).
  assert (Hid : GetString clientIDOnly ClientIDName <> EmptyString)
    by (vm_compute; discriminate).
  assert (Hsecret : GetString clientIDOnly ClientSecretName = EmptyString)
    by (vm_compute; reflexivity).
  exact (proj2 (incomplete_credentials_rejected acceptAll deviceLogin clientIDOnly
                  Hsub (or_introl (conj Hid Hsecret)))).
Defined.

(** A client ID alone, without a subscription: the first check of [Args]
    answers, and its error is not the one about the credentials. *)
Lemma missing_subscription_reported_first :
  GetString clientIDWithoutSubscription ClientIDName = "6f1c0a52-app"
  /\ GetString clientIDWithoutSubscription ClientSecretName = EmptyString
  /\ provisionCmd_Args acceptAll clientIDWithoutSubscription =
       (clientIDWithoutSubscription,
        Some (errorString ("no value found for " +:+ dquote +:+ "subscription-id" +:+ dquote)))
  /\ execute (provisionCmd_Args acceptAll) deviceLogin clientIDWithoutSubscription =
       (Some noSubscription, [])
  /\ noSubscription <> incompleteCredentials.
Proof.
  split; [vm_compute; reflexivity|].
  split; [vm_compute; reflexivity|].
  split; [vm_compute; reflexivity|].
  split; [vm_compute; reflexivity|].
  vm_compute. discriminate.
Qed.

(** ** The resource group *)

(** Whatever the client, a group reported present (204) is left alone:
    the function returns at once and [CreateOrUpdate] is not called. *)
Lemma insertResourceGroup_present {S : Type} `{GroupsClient S}
    (groups groups' : S) (name location : string) :
  CheckExistence groups name = (inr http_StatusNoContent, groups') ->
  insertResourceGroup groups name location = ((false, None), groups').
Proof.
  intros Hcheck. unfold insertResourceGroup. rewrite Hcheck.
  destruct (decide (http_StatusNoContent = http_StatusNoContent)); [reflexivity | contradiction].
Qed.

(** A group reported absent (404) is created, and a 201 reports it as
    created. *)
Lemma insertResourceGroup_absent {S : Type} `{GroupsClient S}
    (groups groups' groups'' : S) (name location : string) :
  CheckExistence groups name = (inr http_StatusNotFound, groups') ->
  CreateOrUpdate groups' name (mkGroup (Some location)) = (inr http_StatusCreated, groups'') ->
  insertResourceGroup groups name location = ((true, None), groups'').
Proof.
  intros Hcheck Hcreate. unfold insertResourceGroup. rewrite Hcheck.
  destruct (decide (http_StatusNotFound = http_StatusNoContent)) as [Heq|_]; [discriminate Heq|].
  destruct (decide (http_StatusNotFound = http_StatusNotFound)); [|contradiction].
  rewrite Hcreate.
  destruct (decide (http_StatusCreated = http_StatusCreated)); [reflexivity | contradiction].
Qed.

(** C6: ensuring a resource group is idempotent.  When the group does
    not exist, the first call creates it in the region asked for and
    reports created = true; a second call for the same name, whatever
    region it asks for, reports created = false and no error, and leaves
    every group, the region of this one included, as it was: the only
    request it sends is the existence check, no create request. *)
Theorem insertResourceGroup_idempotent (arm : ResourceManager)
    (name location location' : string) :
  resourceGroups arm !! name = None ->
  let first := insertResourceGroup arm name location in
  let second := insertResourceGroup first.2 name location' in
  first.1 = (true, None)
  /\ resourceGroups first.2 = <[name := mkGroup (Some location)]> (resourceGroups arm)
  /\ second.1 = (false, None)
  /\ resourceGroups second.2 = resourceGroups first.2
  /\ resourceGroups second.2 !! name = Some (mkGroup (Some location))
  /\ received second.2 = received first.2 ++ [HeadGroup name].
Proof.
  intros Habsent first second.
  assert (Hfirst : first =
    ((true, None),
     mkResourceManager (<[name := mkGroup (Some location)]> (resourceGroups arm))
       ((received arm ++ [HeadGroup name]) ++ [PutGroup name (mkGroup (Some location))]))).
  { unfold first. eapply insertResourceGroup_absent.
    - simpl. unfold ResourceManager_head. rewrite Habsent. reflexivity.
    - simpl. unfold ResourceManager_put. simpl. rewrite Habsent. reflexivity. }
  assert (Hsecond : second =
    ((false, None),
     mkResourceManager (resourceGroups first.2) (received first.2 ++ [HeadGroup name]))).
  { unfold second. eapply insertResourceGroup_present.
    simpl. unfold ResourceManager_head. rewrite Hfirst. simpl.
    rewrite lookup_insert_eq. reflexivity. }
  rewrite Hsecond. rewrite Hfirst. simpl.
  repeat split. apply lookup_insert_eq.
Qed.

(** The group "demo-rg", created in "centralus" and then asked for in
    "eastus". *)
Lemma insertResourceGroup_idempotent_witness :
  let first := insertResourceGroup noGroups "demo-rg" "centralus" in
  let second := insertResourceGroup first.2 "demo-rg" "eastus" in
  first.1 = (true, None)
  /\ resourceGroups first.2 = <[ "demo-rg" := mkGroup (Some "centralus") ]> ∅
  /\ second.1 = (false, None)
  /\ resourceGroups second.2 = resourceGroups first.2
  /\ resourceGroups second.2 !! "demo-rg" = Some (mkGroup (Some "centralus"))
  /\ received second.2 = received first.2 ++ [HeadGroup "demo-rg"].
Proof.
  exact (insertResourceGroup_idempotent noGroups "demo-rg" "centralus" "eastus"
           (lookup_empty _)).
Defined.

(** ** The sanitized copy of the parameters *)

Section SanitizeFacts.

Context {any : Type}.
Implicit Types (h : Heap any) (kvs : gmap string (DeploymentParameter any)).

Local Notation "'let*' x ':=' m 'in' k" := (bind m (fun x => k))
  (at level 10, x pattern, m at level 100, k at level 200).

(** A step that returns lets the rest of the computation run. *)
Lemma bind_Some {A B : Type} (m : Go any A) (k : A -> Go any B) h (a : A) h' :
  m h = Some (a, h') -> bind m k h = k a h'.
Proof. intros Hm. unfold bind. rewrite Hm. reflexivity. Qed.

(** Entries assigned one after the other end up on top of what the map
    held. *)
Lemma assign_all (l : list (string * DeploymentParameter any)) :
  NoDup l.*1 ->
  forall (copy mp : ptr) (c : DeploymentParameters) kvs h,
    structs h !! copy = Some c ->
    Parameters c = Some mp ->
    maps h !! mp = Some kvs ->
    forRange l (fun k v => let* c := load copy in mapassign (Parameters c) k v) h =
      Some (tt, mkHeap (structs h) (<[mp := list_to_map l ∪ kvs]> (maps h))).
Proof.
  induction l as [|[k v] l IH]; intros Hnodup copy mp c kvs h Hcopy Hmp Hkvs.
  - simpl. unfold ret. rewrite (left_id_L ∅ (∪)). rewrite insert_id by exact Hkvs.
    destruct h; reflexivity.
  - simpl in Hnodup. apply NoDup_cons in Hnodup as [Hk Hnodup].
    cbn [forRange].
    erewrite bind_Some; cycle 1.
    { erewrite bind_Some; cycle 1.
      - unfold load. rewrite Hcopy. reflexivity.
      - rewrite Hmp. unfold mapassign. rewrite Hkvs. reflexivity. }
    erewrite (IH Hnodup copy mp c); cycle 1.
    + exact Hcopy.
    + exact Hmp.
    + simpl. apply lookup_insert_eq.
    + simpl. rewrite insert_insert_eq. do 3 f_equal.
      rewrite <- insert_union_r by (apply not_elem_of_list_to_map_1, Hk).
      rewrite <- insert_union_l. reflexivity.
Qed.

(** What [stripPasswords] returns and the heap it leaves, for a pointer to
    a parameter set whose fields are [s] and whose map holds [kvs]. *)
Lemma stripPasswords_run (defaults : string * string) h (original : ptr)
    (s : DeploymentParameters) kvs :
  structs h !! original = Some s ->
  entries (Parameters s) h = Some (kvs, h) ->
  let m0 := fresh (dom (maps h)) in
  let m1 := fresh (dom (<[m0 := ∅]> (maps h))) in
  let copy := fresh (dom (structs h)) in
  stripPasswords defaults original h =
    Some (copy,
          mkHeap
            (<[copy := mkDeploymentParameters (Schema s) (ContentVersion s) (Some m1)]>
               (structs h))
            (<[m1 := delete registryPasswordKey (delete databasePasswordKey kvs)]>
               (<[m0 := ∅]> (maps h)))).
Proof.
  intros Horiginal Hentries m0 m1 copy.
  assert (Hcopy : structs h !! copy = None)
    by (apply not_elem_of_dom, is_fresh).
  assert (Hm0 : maps h !! m0 = None)
    by (apply not_elem_of_dom, is_fresh).
  assert (Hm1 : (<[m0 := ∅]> (maps h)) !! m1 = None)
    by (apply not_elem_of_dom, is_fresh).
  assert (Hne : copy <> original) by congruence.
  assert (Hsource : forall structs' maps',
    (forall mp, Parameters s = Some mp -> maps' !! mp = maps h !! mp) ->
    entries (Parameters s) (mkHeap structs' maps') = Some (kvs, mkHeap structs' maps')).
  { intros structs' maps' Hsame. unfold entries in *.
    destruct (Parameters s) as [mp|]; [|congruence].
    cbn [maps]. rewrite (Hsame mp eq_refl).
    destruct (maps h !! mp); congruence. }
  assert (Hbelow : forall mp, Parameters s = Some mp -> mp <> m0 /\ mp <> m1).
  { intros mp Hmp. unfold entries in Hentries. rewrite Hmp in Hentries.
    destruct (maps h !! mp) eqn:Hlook; [|discriminate].
    assert (mp <> m0) by congruence. split; [assumption|].
    intros ->. rewrite lookup_insert_ne, Hlook in Hm1 by congruence. discriminate. }
  assert (Hm10 : m0 <> m1).
  { intros Heq. rewrite <- Heq, lookup_insert_eq in Hm1. discriminate. }
  unfold stripPasswords, NewDeploymentParameters.
  unfold bind at 1. unfold bind at 1. unfold makeMap at 1. unfold newStruct.
  cbn [structs maps]. fold m0. fold copy.
  (* copy.Parameters = make(...) *)
  erewrite bind_Some; cycle 1.
  { unfold load. cbn [structs]. rewrite lookup_insert_ne, Horiginal by exact Hne. reflexivity. }
  erewrite bind_Some; cycle 1.
  { apply Hsource. intros mp Hmp. apply lookup_insert_ne. symmetry. apply (Hbelow mp Hmp). }
  erewrite bind_Some; cycle 1.
  { unfold makeMap. cbn [structs maps]. fold m1. reflexivity. }
  erewrite bind_Some; cycle 1.
  { unfold load. cbn [structs]. rewrite lookup_insert_eq. reflexivity. }
  erewrite bind_Some; cycle 1.
  { unfold store. cbn [structs maps]. rewrite lookup_insert_eq, insert_insert_eq. reflexivity. }
  (* copy.ContentVersion = original.ContentVersion *)
  erewrite bind_Some; cycle 1.
  { unfold load. cbn [structs]. rewrite lookup_insert_ne, Horiginal by exact Hne. reflexivity. }
  erewrite bind_Some; cycle 1.
  { unfold load. cbn [structs]. rewrite lookup_insert_eq. reflexivity. }
  erewrite bind_Some; cycle 1.
  { unfold store. cbn [structs maps]. rewrite lookup_insert_eq, insert_insert_eq. reflexivity. }
  (* copy.Schema = original.Schema *)
  erewrite bind_Some; cycle 1.
  { unfold load. cbn [structs]. rewrite lookup_insert_ne, Horiginal by exact Hne. reflexivity. }
  erewrite bind_Some; cycle 1.
  { unfold load. cbn [structs]. rewrite lookup_insert_eq. reflexivity. }
  erewrite bind_Some; cycle 1.
  { unfold store. cbn [structs maps]. rewrite lookup_insert_eq, insert_insert_eq. reflexivity. }
  cbn [Schema ContentVersion Parameters].
  (* the range loop *)
  erewrite bind_Some; cycle 1.
  { unfold load. cbn [structs]. rewrite lookup_insert_ne, Horiginal by exact Hne. reflexivity. }
  erewrite bind_Some; cycle 1.
  { apply Hsource. intros mp Hmp. destruct (Hbelow mp Hmp).
    rewrite !lookup_insert_ne by congruence. reflexivity. }
  erewrite bind_Some; cycle 1.
  { eapply (assign_all _ (NoDup_fst_map_to_list kvs) copy m1).
    - cbn [structs]. apply lookup_insert_eq.
    - reflexivity.
    - cbn [maps]. apply lookup_insert_eq. }
  cbn [structs maps].
  rewrite insert_insert_eq, list_to_map_to_list, (right_id_L ∅ (∪)).
  (* the two deletions *)
  erewrite bind_Some; cycle 1.
  { unfold load. cbn [structs]. rewrite lookup_insert_eq. reflexivity. }
  erewrite bind_Some; cycle 1.
  { unfold mapdelete. cbn [Parameters structs maps].
    rewrite lookup_insert_eq, insert_insert_eq. reflexivity. }
  erewrite bind_Some; cycle 1.
  { unfold load. cbn [structs]. rewrite lookup_insert_eq. reflexivity. }
  erewrite bind_Some; cycle 1.
  { unfold mapdelete. cbn [Parameters structs maps].
    rewrite lookup_insert_eq, insert_insert_eq. reflexivity. }
  reflexivity.
Qed.


(** A pointer reads as a parameter set when its struct is on the heap and
    its map, unless nil, is too. *)
Lemma contents_Some h (p : ptr) (schema version : string) kvs :
  contents h p = Some (schema, version, kvs) <->
  exists s, structs h !! p = Some s /\ Schema s = schema /\ ContentVersion s = version
            /\ entries (Parameters s) h = Some (kvs, h).
Proof.
  unfold contents, entries. split.
  - destruct (structs h !! p) as [s|]; [|discriminate].
    intros Hc. exists s. split; [reflexivity|].
    destruct (Parameters s) as [mp|]; [destruct (maps h !! mp)|]; naive_solver.
  - intros (s & -> & <- & <- & He).
    destruct (Parameters s) as [mp|]; [destruct (maps h !! mp)|]; naive_solver.
Qed.

(** The copy, read back from the heap [stripPasswords] leaves. *)
Lemma stripPasswords_contents (defaults : string * string) h (original : ptr)
    (schema version : string) kvs :
  contents h original = Some (schema, version, kvs) ->
  exists (copy : ptr) h',
    stripPasswords defaults original h = Some (copy, h')
    /\ copy <> original
    /\ structs h ⊆ structs h'
    /\ maps h ⊆ maps h'
    /\ contents h' copy =
         Some (schema, version, delete registryPasswordKey (delete databasePasswordKey kvs)).
Proof.
  intros (s & Hs & <- & <- & Hentries)%contents_Some.
  pose proof (stripPasswords_run defaults h original s kvs Hs Hentries) as Hrun.
  cbv zeta in Hrun.
  set (m0 := fresh (dom (maps h))) in *.
  set (m1 := fresh (dom (<[m0 := ∅]> (maps h)))) in *.
  set (copy := fresh (dom (structs h))) in *.
  assert (Hcopy : structs h !! copy = None) by (apply not_elem_of_dom, is_fresh).
  assert (Hm0 : maps h !! m0 = None) by (apply not_elem_of_dom, is_fresh).
  assert (Hm1 : (<[m0 := ∅]> (maps h)) !! m1 = None) by (apply not_elem_of_dom, is_fresh).
  eexists copy, _. split; [exact Hrun|]. cbn [structs maps]. repeat split.
  - congruence.
  - apply insert_subseteq, Hcopy.
  - etrans; [apply insert_subseteq, Hm0 | apply insert_subseteq, Hm1].
  - unfold contents. cbn [structs maps]. rewrite lookup_insert_eq.
    cbn [Parameters Schema ContentVersion]. rewrite lookup_insert_eq. reflexivity.
Qed.

(** C7: sanitizing is total and idempotent.  For every parameter set,
    with or without the two password entries, [stripPasswords] returns a
    copy that holds neither [databaseAdministratorLoginPassword] nor
    [dockerRegistryServerPassword], and sanitizing that copy again
    returns a parameter set with the same schema, content version and
    entries. *)
Theorem stripPasswords_total_idempotent (defaults : string * string) h (original : ptr)
    (schema version : string) kvs :
  contents h original = Some (schema, version, kvs) ->
  exists (copy : ptr) h' kvs',
    stripPasswords defaults original h = Some (copy, h')
    /\ contents h' copy = Some (schema, version, kvs')
    /\ kvs' !! databasePasswordKey = None
    /\ kvs' !! registryPasswordKey = None
    /\ exists (again : ptr) h'',
         stripPasswords defaults copy h' = Some (again, h'')
         /\ contents h'' again = contents h' copy.
Proof.
  intros Hc.
  destruct (stripPasswords_contents defaults h original schema version kvs Hc)
    as (copy & h' & Hrun & _ & _ & _ & Hcopy).
  exists copy, h', (delete registryPasswordKey (delete databasePasswordKey kvs)).
  split; [exact Hrun|]. split; [exact Hcopy|].
  assert (Hdb : delete registryPasswordKey (delete databasePasswordKey kvs)
                  !! databasePasswordKey = None).
  { rewrite lookup_delete_ne by discriminate. apply lookup_delete_eq. }
  assert (Hreg : delete registryPasswordKey (delete databasePasswordKey kvs)
                   !! registryPasswordKey = None) by apply lookup_delete_eq.
  split; [exact Hdb|]. split; [exact Hreg|].
  destruct (stripPasswords_contents defaults h' copy schema version _ Hcopy)
    as (again & h'' & Hrun' & _ & _ & _ & Hagain).
  exists again, h''. split; [exact Hrun'|].
  rewrite Hagain, Hcopy. do 2 f_equal.
  rewrite (delete_id _ databasePasswordKey) by exact Hdb.
  apply delete_id, Hreg.
Qed.

(** C10: [stripPasswords] does not write to its argument.  Every struct
    and every map of the heap it is called on is in the heap it leaves,
    unchanged, so the original reads as before (schema, content version
    and map); the copy is another object, with the schema and content
    version of the original and, under every key but the two password
    keys, the value the original holds. *)
Theorem stripPasswords_leaves_original (defaults : string * string) h (original : ptr)
    (schema version : string) kvs :
  contents h original = Some (schema, version, kvs) ->
  exists (copy : ptr) h' kvs',
    stripPasswords defaults original h = Some (copy, h')
    /\ structs h ⊆ structs h'
    /\ maps h ⊆ maps h'
    /\ structs h' !! original = structs h !! original
    /\ contents h' original = Some (schema, version, kvs)
    /\ copy <> original
    /\ contents h' copy = Some (schema, version, kvs')
    /\ forall k : string,
         k <> databasePasswordKey -> k <> registryPasswordKey -> kvs' !! k = kvs !! k.
Proof.
  intros Hc.
  destruct (stripPasswords_contents defaults h original schema version kvs Hc)
    as (copy & h' & Hrun & Hne & Hstructs & Hmaps & Hcopy).
  exists copy, h', (delete registryPasswordKey (delete databasePasswordKey kvs)).
  apply contents_Some in Hc as (s & Hs & Hschema & Hversion & Hentries).
  assert (Hs' : structs h' !! original = Some s)
    by (eapply lookup_weaken; eassumption).
  repeat split; try assumption.
  - congruence.
  - apply contents_Some. exists s. repeat split; try assumption.
    unfold entries in *. destruct (Parameters s) as [mp|]; [|congruence].
    destruct (maps h !! mp) as [kvs0|] eqn:Hmp; [|discriminate].
    rewrite (lookup_weaken _ _ _ _ Hmp Hmaps). congruence.
  - intros k Hdb Hreg. rewrite !lookup_delete_ne by congruence. reflexivity.
Qed.

End SanitizeFacts.

(** A parameter set without passwords, sanitized twice. *)
Lemma stripPasswords_total_idempotent_witness :
  exists (copy : ptr) (h' : Heap string) (kvs' : gmap string (DeploymentParameter string)),
    stripPasswords (parametersSchema, "1.0.0.0") 1%positive twoSets = Some (copy, h')
    /\ contents h' copy = Some (parametersSchema, "1.0.0.0", kvs')
    /\ kvs' !! databasePasswordKey = None
    /\ kvs' !! registryPasswordKey = None
    /\ exists (again : ptr) (h'' : Heap string),
         stripPasswords (parametersSchema, "1.0.0.0") copy h' = Some (again, h'')
         /\ contents h'' again = contents h' copy.
Proof.
  assert (Hc : contents twoSets 1%positive = Some (parametersSchema, "1.0.0.0", plainParameters))
    by (vm_compute; reflexivity).
  exact (stripPasswords_total_idempotent (parametersSchema, "1.0.0.0") twoSets 1%positive
           parametersSchema "1.0.0.0" plainParameters Hc).
Defined.

(** A parameter set with both passwords: the copy lacks them, the
    original keeps them. *)
Lemma stripPasswords_leaves_original_witness :
  exists (copy : ptr) (h' : Heap string) (kvs' : gmap string (DeploymentParameter string)),
    stripPasswords (parametersSchema, "1.0.0.0") 2%positive twoSets = Some (copy, h')
    /\ structs twoSets ⊆ structs h'
    /\ maps twoSets ⊆ maps h'
    /\ structs h' !! 2%positive = structs twoSets !! 2%positive
    /\ contents h' 2%positive = Some (parametersSchema, "1.0.0.0", secretParameters)
    /\ copy <> 2%positive
    /\ contents h' copy = Some (parametersSchema, "1.0.0.0", kvs')
    /\ forall k : string,
         k <> databasePasswordKey -> k <> registryPasswordKey ->
         kvs' !! k = secretParameters !! k.
Proof.
  assert (Hc : contents twoSets 2%positive = Some (parametersSchema, "1.0.0.0", secretParameters))
    by (vm_compute; reflexivity).
  exact (stripPasswords_leaves_original (parametersSchema, "1.0.0.0") twoSets 2%positive
           parametersSchema "1.0.0.0" secretParameters Hc).
Defined.

(** The run itself on that heap: the copy is a new struct, it holds the
    entries that are no passwords, and the set with the passwords reads
    as before. *)
Example stripPasswords_twoSets :
  match stripPasswords (parametersSchema, "1.0.0.0") 2%positive twoSets with
  | Some (copy, h') => Some (copy, contents h' copy, contents h' 2%positive)
  | None => None
  end =
  Some (3%positive,
        Some (parametersSchema, "1.0.0.0", plainParameters),
        Some (parametersSchema, "1.0.0.0", secretParameters)).
Proof. vm_compute. reflexivity. Qed.

(** ** More on the download *)

(** One request on top of what a continuation does. *)
Lemma advanced_step (net : Transport) (budget : nat) (src : string) (st : Download)
    (res : option error * Download) :
  advanced net budget (mkDownload (sent st ++ [GET src]) (dest st)) res ->
  advanced net (S budget) st res.
Proof.
  intros (extra & Hsent & Hlen & Hget & Hdest). cbn [sent dest] in *.
  exists (GET src :: extra). repeat split.
  - rewrite Hsent, <- app_assoc. reflexivity.
  - simpl. lia.
  - constructor; [reflexivity | exact Hget].
  - exact Hdest.
Qed.

Lemma advanced_failed (net : Transport) (budget : nat) (st : Download) (err : error) :
  advanced net budget st (Some err, st).
Proof.
  exists []. cbn. rewrite app_nil_r. repeat split; [lia | constructor |].
  left. split; [discriminate | reflexivity].
Qed.

Lemma advanced_weaken (net : Transport) (n m : nat) (st : Download)
    (res : option error * Download) :
  (n <= m)%nat -> advanced net n st res -> advanced net m st res.
Proof.
  intros Hle (extra & Hsent & Hlen & Hrest). exists extra. repeat split; try tauto. lia.
Qed.

(** The loop of attempts, whatever the network answers: each attempt
    sends at most one request, and a redirect hands over to [follow]. *)
Lemma attempts_advanced (net : Transport)
    (follow : string -> Download -> option error * Download) (m : nat) :
  (forall loc st, advanced net m st (follow loc st)) ->
  forall (remaining : list nat) (src : string) (st : Download),
    advanced net (length remaining + m) st (attempts net follow remaining src st).
Proof.
  intros Hfollow remaining src. induction remaining as [|attempt remaining IH]; intros st.
  - apply advanced_failed.
  - cbn [attempts]. unfold http_NewRequest.
    destruct (url_Parse net src) as [err|]; [apply advanced_failed|].
    unfold http_Do. fold (GET src).
    destruct (RoundTrip net (sent st) (GET src)) as [err|resp] eqn:Hanswer.
    + apply (advanced_step net (length remaining + m) src), advanced_failed.
    + destruct (decide (StatusCode resp ∈ acceptedCodes)) as [Hok|_].
      * exists [GET src]. cbn. repeat split; [lia | repeat constructor |].
        right. exists resp, (sent st), (GET src).
        repeat split; [exact Hanswer | apply acceptedCodes_spec, Hok].
      * destruct (decide (StatusCode resp ∈ redirectCodes)) as [_|_].
        { apply (advanced_step net (length remaining + m) src). eapply advanced_weaken; [|apply Hfollow]. lia. }
        destruct (decide (StatusCode resp ∈ temporaryFailureCodes)) as [_|_].
        { apply (advanced_step net (length remaining + m) src). eapply advanced_weaken; [|apply IH]. simpl. lia. }
        apply (advanced_step net (length remaining + m) src), advanced_failed.
Qed.

(** [download] at any depth: three requests at most for each level that
    is left. *)
Lemma download_advanced (net : Transport) (levels : nat) :
  forall (depth : nat) (src : string) (st : Download),
    (S maxRedirects - depth = levels)%nat ->
    advanced net (maxRetries * levels) st (download net depth src st).
Proof.
  induction levels as [|levels IH]; intros depth src st Hlevels.
  - rewrite download_beyond by lia. apply advanced_failed.
  - rewrite download_within by lia.
    eapply advanced_weaken; [|apply (attempts_advanced net _ (maxRetries * levels))].
    + rewrite length_seq. lia.
    + intros loc st'. apply IH. lia.
Qed.

(** X1: whatever [Do] answers, a download calls it at most
    [maxRedirects * maxRetries] = 15 times, and every request it sends is
    a GET. *)
Theorem downloadTemplate_request_bound (net : Transport) (buffer : list Byte.byte)
    (src : string) :
  (length (sent (downloadTemplate net buffer src).2) <= maxRedirects * maxRetries)%nat
  /\ Forall (fun req => Method req = http_MethodGet)
       (sent (downloadTemplate net buffer src).2).
Proof.
  unfold downloadTemplate.
  destruct (download_advanced net maxRedirects 1 src (mkDownload [] buffer) eq_refl)
    as (extra & Hsent & Hlen & Hget & _).
  cbn [sent] in Hsent. rewrite app_nil_l in Hsent. rewrite Hsent.
  split; [|exact Hget]. rewrite Nat.mul_comm. exact Hlen.
Qed.

(** X2: a download writes to the destination only when it copies the
    body of a 200 answer.  If it fails otherwise the destination is as it
    was; and when it returns no error, the last request it sent was
    answered 200 and the destination is what it was followed by exactly
    that body, read to its end. *)
Theorem downloadTemplate_writes_only_accepted_body (net : Transport)
    (buffer : list Byte.byte) (src : string) :
  let res := downloadTemplate net buffer src in
  (res.1 <> None /\ dest res.2 = buffer)
  \/ exists (resp : Response) (before : list Request) (req : Request),
       sent res.2 = before ++ [req]
       /\ RoundTrip net before req = inr resp
       /\ StatusCode resp = 200
       /\ res.1 = failure (Body resp)
       /\ dest res.2 = buffer ++ delivered (Body resp).
Proof.
  unfold downloadTemplate.
  destruct (download_advanced net maxRedirects 1 src (mkDownload [] buffer) eq_refl)
    as (extra & _ & _ & _ & Hdest).
  exact Hdest.
Qed.

(** After temporary failures that leave an attempt, [download] stands at
    the next attempt of the same hop. *)
Lemma download_resumes (net : Transport) (depth : nat) (src : string) (st : Download)
    (codes : list Z) :
  (depth <= maxRedirects)%nat ->
  url_Parse net src = None ->
  Forall (fun code => code ∈ temporaryFailureCodes) codes ->
  answered net (sent st) src codes ->
  (length codes < maxRetries)%nat ->
  download net depth src st =
    attempts net (fun loc s => download net (S depth) loc s)
      (length codes :: seq (S (length codes)) (maxRetries - S (length codes))) src
      (mkDownload (sent st ++ replicate (length codes) (GET src)) (dest st)).
Proof.
  intros Hdepth Hparse Hcodes Hans Hlen.
  rewrite download_within by exact Hdepth.
  rewrite (attempts_temporary_run net _ src codes Hparse Hcodes _ _ Hans)
    by (rewrite length_seq; lia).
  rewrite drop_seq. simpl (0 + _)%nat.
  replace (maxRetries - length codes)%nat with (S (maxRetries - S (length codes))) by lia.
  reflexivity.
Qed.

Lemma attempt_broken (net : Transport)
    (follow : string -> Download -> option error * Download)
    (attempt : nat) (remaining : list nat) (src : string) (st : Download) (err : error) :
  url_Parse net src = None ->
  RoundTrip net (sent st) (GET src) = inl err ->
  attempts net follow (attempt :: remaining) src st =
    (Some err, mkDownload (sent st ++ [GET src]) (dest st)).
Proof.
  intros Hparse Hanswer. simpl. unfold http_NewRequest. rewrite Hparse.
  unfold http_Do. fold (GET src). rewrite Hanswer. reflexivity.
Qed.

(** X3: an error of the transport is never retried.  When the request
    cannot be built the download returns that error and sends nothing;
    when [Do] fails, on the first attempt of a hop or after temporary
    failures that left attempts over, the download returns that error at
    once and the attempts that are left are not used. *)
Theorem transport_error_ends_download (net : Transport) (depth : nat) (src : string)
    (st : Download) (codes : list Z) (err : error) :
  (depth <= maxRedirects)%nat ->
  (url_Parse net src = Some err -> download net depth src st = (Some err, st))
  /\ (url_Parse net src = None ->
      Forall (fun code => code ∈ temporaryFailureCodes) codes ->
      answered net (sent st) src codes ->
      (length codes < maxRetries)%nat ->
      RoundTrip net (sent st ++ replicate (length codes) (GET src)) (GET src) = inl err ->
      download net depth src st =
        (Some err, mkDownload (sent st ++ replicate (S (length codes)) (GET src)) (dest st))).
Proof.
  intros Hdepth. split.
  - intros Hparse. rewrite download_within by exact Hdepth.
    unfold maxRetries. simpl. unfold http_NewRequest. rewrite Hparse. reflexivity.
  - intros Hparse Hcodes Hans Hlen Hbroken.
    rewrite (download_resumes net depth src st codes) by assumption.
    rewrite (attempt_broken net _ _ _ src
             (mkDownload (sent st ++ replicate (length codes) (GET src)) (dest st)) err Hparse Hbroken).
    cbn [sent dest]. rewrite <- app_assoc, <- replicate_S_end. reflexivity.
Qed.

Lemma transport_error_ends_download_witness :
  downloadTemplate breaksOnThird [] templateLink =
    (Some (errorString "read: connection reset by peer"),
     mkDownload [GET templateLink; GET templateLink; GET templateLink] []).
Proof.
  assert (Hans : answered breaksOnThird [] templateLink [504; 504]).
  { intros [|[|k]] code Hk; simpl in Hk; inversion Hk; eexists; split; reflexivity. }
  assert (Hcodes : Forall (fun code => code ∈ temporaryFailureCodes) [504; 504]).
  { repeat constructor; apply temporaryFailureCodes_spec; lia. }
  exact (proj2 (transport_error_ends_download breaksOnThird 1 templateLink
                  (mkDownload [] []) [504; 504] connectionReset
                  ltac:(unfold maxRedirects; lia))
           eq_refl Hcodes Hans ltac:(unfold maxRetries; simpl; lia) eq_refl).
Defined.

(** X4: a status that is not 200, not one of the five redirect codes and
    not one of the three temporary codes (a 404, a 500, a 503) ends the
    download at once, also after temporary failures that left attempts
    over: the error names the code, and no further request is sent. *)
Theorem unexpected_status_ends_download (net : Transport) (depth : nat) (src : string)
    (st : Download) (codes : list Z) (resp : Response) :
  (depth <= maxRedirects)%nat ->
  url_Parse net src = None ->
  Forall (fun code => code ∈ temporaryFailureCodes) codes ->
  answered net (sent st) src codes ->
  (length codes < maxRetries)%nat ->
  RoundTrip net (sent st ++ replicate (length codes) (GET src)) (GET src) = inr resp ->
  unexpected (StatusCode resp) ->
  download net depth src st =
    (Some (Errorf_d "unexpected status code: " (StatusCode resp) ""),
     mkDownload (sent st ++ replicate (S (length codes)) (GET src)) (dest st)).
Proof.
  intros Hdepth Hparse Hcodes Hans Hlen Hresp (Hok & Hred & Htmp).
  rewrite (download_resumes net depth src st codes) by assumption.
  rewrite (attempt_unexpected net _ src
             (mkDownload (sent st ++ replicate (length codes) (GET src)) (dest st)) resp _ _ Hparse Hresp Hok Hred Htmp).
  cbn [sent dest]. rewrite <- app_assoc, <- replicate_S_end. reflexivity.
Qed.

Lemma unexpected_status_ends_download_witness :
  downloadTemplate failsOnThird [] templateLink =
    (Some (errorString "unexpected status code: 503"),
     mkDownload [GET templateLink; GET templateLink; GET templateLink] []).
Proof.
  assert (Hans : answered failsOnThird [] templateLink [408; 429]).
  { intros [|[|k]] code Hk; simpl in Hk; inversion Hk; eexists; split; reflexivity. }
  assert (Hcodes : Forall (fun code => code ∈ temporaryFailureCodes) [408; 429]).
  { repeat constructor; apply temporaryFailureCodes_spec; lia. }
  assert (Hunexpected : unexpected 503).
  { repeat split; [lia | unfold isRedirect; lia | rewrite temporaryFailureCodes_spec; lia]. }
  exact (unexpected_status_ends_download failsOnThird 1 templateLink
           (mkDownload [] []) [408; 429] (answer 503 "" [])
           ltac:(unfold maxRedirects; lia) eq_refl Hcodes Hans
           ltac:(unfold maxRetries; simpl; lia) eq_refl Hunexpected).
Defined.

(** X5: the attempts are counted per hop.  A redirect that arrives after
    temporary failures, on the last attempt even, starts the next hop
    with all [maxRetries] attempts; and a redirect that carries no
    [Location] header is followed all the same, to the empty URL. *)
Theorem redirect_starts_fresh_attempts (net : Transport) (depth : nat) (src : string)
    (st : Download) (codes : list Z) (resp : Response) :
  (S depth <= maxRedirects)%nat ->
  url_Parse net src = None ->
  Forall (fun code => code ∈ temporaryFailureCodes) codes ->
  answered net (sent st) src codes ->
  (length codes < maxRetries)%nat ->
  RoundTrip net (sent st ++ replicate (length codes) (GET src)) (GET src) = inr resp ->
  isRedirect (StatusCode resp) ->
  download net depth src st =
    attempts net (fun loc s => download net (S (S depth)) loc s) (seq 0 maxRetries)
      (Header_Get (Header resp) "Location")
      (mkDownload (sent st ++ replicate (S (length codes)) (GET src)) (dest st))
  /\ (Header resp !! "Location" = None ->
      Header_Get (Header resp) "Location" = EmptyString).
Proof.
  intros Hdepth Hparse Hcodes Hans Hlen Hresp Hred. split.
  - rewrite (download_resumes net depth src st codes) by (assumption || lia).
    rewrite (attempt_redirect net _ src
             (mkDownload (sent st ++ replicate (length codes) (GET src)) (dest st)) resp _ _ Hparse Hresp Hred).
    rewrite download_within by exact Hdepth.
    cbn [sent dest]. rewrite <- app_assoc, <- replicate_S_end. reflexivity.
  - intros Hnone. unfold Header_Get. rewrite Hnone. reflexivity.
Qed.

Lemma redirect_starts_fresh_attempts_witness :
  downloadTemplate movedNowhere [] templateLink =
    (None,
     mkDownload [GET templateLink; GET templateLink; GET templateLink;
                 GET ""; GET ""; GET ""] templateBody).
Proof.
  assert (Hans : answered movedNowhere [] templateLink [408; 429]).
  { intros [|[|k]] code Hk; simpl in Hk; inversion Hk; eexists; split; reflexivity. }
  assert (Hcodes : Forall (fun code => code ∈ temporaryFailureCodes) [408; 429]).
  { repeat constructor; apply temporaryFailureCodes_spec; lia. }
  unfold downloadTemplate.
  rewrite (proj1 (redirect_starts_fresh_attempts movedNowhere 1 templateLink
                    (mkDownload [] []) [408; 429] (answer 301 "" [])
                    ltac:(unfold maxRedirects; lia) eq_refl Hcodes Hans
                    ltac:(unfold maxRetries; simpl; lia) eq_refl
                    ltac:(unfold isRedirect; simpl; lia))).
  reflexivity.
Defined.

(** ** The download behind the default client *)

(** A hop to the empty URL fails, with one request at most. *)
Lemma download_empty_fails (net : Transport) (depth : nat) (st : Download) :
  asDefaultClient net ->
  exists err : error,
    download net depth EmptyString st = (Some err, st)
    \/ download net depth EmptyString st =
         (Some err, mkDownload (sent st ++ [GET EmptyString]) (dest st)).
Proof.
  intros [_ Hempty].
  destruct (le_lt_dec depth maxRedirects) as [Hin|Hout].
  - rewrite download_within by exact Hin. unfold maxRetries. cbn [seq].
    destruct (url_Parse net EmptyString) as [err|] eqn:Hparse.
    + exists err. left. cbn [attempts]. unfold http_NewRequest. rewrite Hparse. reflexivity.
    + destruct (Hempty (sent st)) as [err Herr]. exists err. right.
      apply attempt_broken; assumption.
  - exists tooManyRedirects. left. apply download_beyond, Hout.
Qed.

(** The attempts of the first hop behind the default client: requests
    for [src], and after a redirect one request more, which fails. *)
Lemma attempts_behind_client (net : Transport) (src : string) :
  asDefaultClient net ->
  forall (remaining : list nat) (st : Download),
    let res := attempts net (fun loc s => download net 2 loc s) remaining src st in
    exists (k : nat) (extra : list Request),
      sent res.2 = sent st ++ replicate k (GET src) ++ extra
      /\ (k <= length remaining)%nat
      /\ (extra = [] \/ (extra = [GET EmptyString] /\ res.1 <> None)).
Proof.
  intros Hclient remaining. induction remaining as [|attempt remaining IH]; intros st res.
  - exists 0%nat, []. subst res. cbn. rewrite app_nil_r. auto.
  - subst res. cbn [attempts]. unfold http_NewRequest.
    destruct (url_Parse net src) as [err|].
    { exists 0%nat, []. cbn. rewrite app_nil_r. split; [reflexivity|]. split; [lia | auto]. }
    unfold http_Do. fold (GET src).
    destruct (RoundTrip net (sent st) (GET src)) as [err|resp] eqn:Hanswer.
    { exists 1%nat, []. cbn. split; [reflexivity|]. split; [lia | auto]. }
    destruct (decide (StatusCode resp ∈ acceptedCodes)).
    { exists 1%nat, []. cbn. split; [reflexivity|]. split; [lia | auto]. }
    destruct (decide (StatusCode resp ∈ redirectCodes)) as [Hred|_].
    { rewrite (proj1 Hclient _ _ _ Hanswer Hred).
      destruct (download_empty_fails net 2 (mkDownload (sent st ++ [GET src]) (dest st)) Hclient)
        as [err [Hrun|Hrun]]; rewrite Hrun; cbn [fst snd sent].
      - exists 1%nat, []. cbn. split; [reflexivity|]. split; [lia | auto].
      - exists 1%nat, [GET EmptyString]. cbn. rewrite <- app_assoc.
        split; [reflexivity|]. split; [lia|]. right. split; [reflexivity | discriminate]. }
    destruct (decide (StatusCode resp ∈ temporaryFailureCodes)).
    { destruct (IH (mkDownload (sent st ++ [GET src]) (dest st)))
        as (k & extra & Hsent & Hk & Hextra).
      exists (S k), extra. cbn [sent] in Hsent. rewrite Hsent.
      split; [rewrite <- app_assoc; reflexivity|]. split; [simpl; lia | exact Hextra]. }
    exists 1%nat, []. cbn. split; [reflexivity|]. split; [lia | auto].
Qed.

(** X24: behind the default client the download never gets past one
    redirect.  When [Do] answers as [http.DefaultClient] does, handing
    back a redirect only when it has no [Location] and refusing the empty
    URL, every request of a download is for the URL it was given, at most
    [maxRetries] = 3 of them, except that after a redirect one request
    for the empty URL may follow, and then the download fails: four calls
    of [Do] at most, and a download that succeeds has asked for nothing
    but the URL it was given. *)
Theorem download_behind_client (net : Transport) (buffer : list Byte.byte) (src : string) :
  asDefaultClient net ->
  let res := downloadTemplate net buffer src in
  exists (k : nat) (extra : list Request),
    sent res.2 = replicate k (GET src) ++ extra
    /\ (k <= maxRetries)%nat
    /\ (extra = [] \/ (extra = [GET EmptyString] /\ res.1 <> None))
    /\ (length (sent res.2) <= S maxRetries)%nat
    /\ (res.1 = None -> Forall (fun req => req = GET src) (sent res.2)).
Proof.
  intros Hclient res. subst res. unfold downloadTemplate.
  rewrite download_within by (unfold maxRedirects; lia).
  destruct (attempts_behind_client net src Hclient (seq 0 maxRetries) (mkDownload [] buffer))
    as (k & extra & Hsent & Hk & Hextra).
  rewrite length_seq in Hk. cbn [sent] in Hsent. rewrite app_nil_l in Hsent.
  exists k, extra. split; [exact Hsent|]. split; [exact Hk|]. split; [exact Hextra|].
  rewrite Hsent. split.
  - rewrite length_app, length_replicate.
    destruct Hextra as [->|[-> _]]; simpl; lia.
  - intros Hok. destruct Hextra as [->|[_ Hfailed]]; [|contradiction].
    rewrite app_nil_r. apply Forall_forall. intros req Hreq.
    apply elem_of_replicate in Hreq as [-> _]. reflexivity.
Qed.

(** Two temporary failures, a redirect without a [Location], and the
    request for the empty URL that the client refuses: four calls. *)
Lemma download_behind_client_witness :
  downloadTemplate handedBack [] templateLink =
    (Some unsupportedScheme,
     mkDownload [GET templateLink; GET templateLink; GET templateLink; GET EmptyString] [])
  /\ exists (k : nat) (extra : list Request),
       sent (downloadTemplate handedBack [] templateLink).2 =
         replicate k (GET templateLink) ++ extra
       /\ (k <= maxRetries)%nat
       /\ (extra = [] \/ (extra = [GET EmptyString]
                          /\ (downloadTemplate handedBack [] templateLink).1 <> None))
       /\ (length (sent (downloadTemplate handedBack [] templateLink).2) <= S maxRetries)%nat
       /\ ((downloadTemplate handedBack [] templateLink).1 = None ->
           Forall (fun req => req = GET templateLink)
             (sent (downloadTemplate handedBack [] templateLink).2)).
Proof.
  assert (Hclient : asDefaultClient handedBack).
  { split.
    - intros before req resp. cbn [RoundTrip handedBack refusingEmpty].
      destruct (decide (URL req = EmptyString)); [discriminate|].
      cbn [RoundTrip scripted].
      destruct before as [|r0 [|r1 [|r2 [|r3 before]]]]; cbn;
        try discriminate; intros Heq _; injection Heq as <-; reflexivity.
    - intros before. exists unsupportedScheme. reflexivity. }
  split; [reflexivity|].
  exact (download_behind_client handedBack [] templateLink Hclient).
Defined.

(** ** More on tenant discovery *)

(** The inner loop returns only at a subscription of the listing that
    matches, and the comparison with it is its last call. *)
Lemma subscriptionLoop_Matched (subscription tenant : string) (l : Listing Subscription)
    (calls : list Call) :
  subscriptionLoop subscription tenant l = (Matched, calls) ->
  exists (sub : Subscription) (earlier : list Call),
    Listing_In sub l
    /\ subscriptionMatches subscription sub = true
    /\ calls = earlier ++ [CallCompare tenant sub].
Proof.
  revert calls. induction l as [|sub rest IH|err]; intros calls Hloop; simpl in Hloop;
    try discriminate.
  destruct (subscriptionMatches subscription sub) eqn:Hsub.
  - injection Hloop as <-. exists sub, []. simpl. auto.
  - destruct (subscriptionLoop subscription tenant rest) as [scan calls'].
    injection Hloop as -> <-.
    destruct (IH calls' eq_refl) as (found & earlier & Hin & Hfound & ->).
    exists found, (CallCompare tenant sub :: earlier). simpl. auto.
Qed.

(** The outer loop: what it returns, and what it does to the settings. *)
Lemma tenantLoop_outcome (az : Azure) (common : Token) (subscription : string)
    (l : Listing TenantIDDescription) (conf : Viper) :
  match tenantLoop az common subscription l conf with
  | (Return (tenant, auth), conf', calls) =>
    Listing_In (mkTenant (Some tenant)) l
    /\ auth = tenantAuthorizer az common tenant
    /\ conf' = Set_ conf TenantIDName (VString tenant)
    /\ exists (sub : Subscription) (earlier : list Call),
         Listing_In sub (Subscriptions az auth)
         /\ subscriptionMatches subscription sub = true
         /\ calls = earlier ++ [CallCompare tenant sub]
  | (_, conf', _) => conf' = conf
  end.
Proof.
  induction l as [|[[tenant|]] rest IH|err]; simpl; try reflexivity.
  unfold adal_NewOAuthConfig, adal_NewServicePrincipalTokenFromManualToken.
  destruct (OAuthConfig_refused az _ tenant); [reflexivity|].
  destruct (ManualToken_refused az _ _ _ _); [reflexivity|].
  fold (tenantAuthorizer az common tenant).
  destruct (subscriptionLoop subscription tenant _) as [[|e] compared] eqn:Hloop.
  - apply subscriptionLoop_Matched in Hloop as (sub & earlier & Hin & Hsub & ->).
    repeat split; [left; reflexivity|].
    exists sub, (CallTokenFromManualToken tenant
                   :: CallListSubscriptions (tenantAuthorizer az common tenant) :: earlier).
    auto.
  - destruct (tenantLoop az common subscription rest conf) as [[[[found auth]|e'|] conf'] calls];
      try exact IH.
    destruct IH as (Hin & Hauth & Hconf & sub & earlier & Hsubin & Hsub & ->).
    repeat split; [right; exact Hin | exact Hauth | exact Hconf |].
    exists sub, ((CallTokenFromManualToken tenant
                    :: CallListSubscriptions (tenantAuthorizer az common tenant) :: compared)
                   ++ earlier).
    rewrite <- app_assoc. auto.
Qed.

(** X6: what [getTenant] returns is sound, and it writes the settings
    only then.  When it returns a tenant, that tenant is one of the
    listing, the authorizer is the one built for it, a subscription
    listed under it equals the target up to the case of its letters, the
    comparison with that subscription is the last call made, and the
    tenant is stored under "tenant-id"; when it fails or panics, the
    settings are as they were. *)
Theorem getTenant_outcome (az : Azure) (conf : Viper) (common : Token)
    (subscription : string) :
  match getTenant az conf common subscription with
  | (Return (tenant, auth), conf', calls) =>
    Listing_In (mkTenant (Some tenant)) (Tenants az (NewBearerAuthorizer (DeviceToken common)))
    /\ auth = tenantAuthorizer az common tenant
    /\ conf' = <[TenantIDName := VString tenant]> conf
    /\ exists (sub : Subscription) (id : string) (earlier : list Call),
         Listing_In sub (Subscriptions az auth)
         /\ SubscriptionID sub = Some id
         /\ ToLower id = ToLower subscription
         /\ calls = earlier ++ [CallCompare tenant sub]
  | (_, conf', _) => conf' = conf
  end.
Proof.
  unfold getTenant.
  pose proof (tenantLoop_outcome az common subscription
                (Tenants az (NewBearerAuthorizer (DeviceToken common))) conf) as Hloop.
  destruct (tenantLoop az common subscription _ conf) as [[[[tenant auth]|e|] conf'] calls];
    try exact Hloop.
  destruct Hloop as (Hin & Hauth & Hconf & sub & earlier & Hsubin & Hsub & ->).
  repeat split; try assumption.
  unfold subscriptionMatches in Hsub.
  destruct (SubscriptionID sub) as [id|] eqn:Hid; [|discriminate].
  exists sub, id, (CallListTenants (NewBearerAuthorizer (DeviceToken common)) :: earlier).
  repeat split; try assumption. apply EqualFold_ToLower, Hsub.
Qed.

(** X7: an error of the tenant listing is returned.  When the tenants
    listed so far do not hold the target and the listing then fails, on
    its first page or on a later one, [getTenant] returns that error
    after the scan of those tenants, and the settings are as they
    were. *)
Theorem tenant_listing_error_is_returned (az : Azure) (conf : Viper) (common : Token)
    (subscription : string) (entries : list (string * list Subscription)) (err : error) :
  Forall (passedOver az common subscription) entries ->
  Tenants az (NewBearerAuthorizer (DeviceToken common)) =
    Listing_app (tenantsOf entries) (ListError err) ->
  getTenant az conf common subscription =
    (Fail err, conf,
     CallListTenants (NewBearerAuthorizer (DeviceToken common))
       :: concat (map (fun entry => scanned az common entry.1 entry.2) entries)).
Proof.
  intros Hpassed Htenants. unfold getTenant. rewrite Htenants.
  rewrite tenantLoop_passed by exact Hpassed.
  simpl. rewrite app_nil_r. reflexivity.
Qed.

Lemma tenant_listing_error_is_returned_witness :
  getTenant secondPageFails ∅ someToken targetSubscription =
    (Fail (errorString "subscriptions.TenantsClient#List: 429"), ∅,
     [CallListTenants (NewBearerAuthorizer (DeviceToken someToken));
      CallTokenFromManualToken "tenant-1";
      CallListSubscriptions (tenantAuthorizer secondPageFails someToken "tenant-1");
      CallCompare "tenant-1" (mkSubscription (Some "11111111-0000-4000-8000-000000000001"));
      CallCompare "tenant-1" (mkSubscription None)]).
Proof.
  assert (Hpassed : Forall (passedOver secondPageFails someToken targetSubscription)
                      [("tenant-1", otherSubscriptions)]) by (repeat constructor).
  exact (tenant_listing_error_is_returned secondPageFails ∅ someToken targetSubscription
           [("tenant-1", otherSubscriptions)] tenantsPageFailed Hpassed eq_refl).
Defined.

(** X8: when [adal] refuses to build the token of a tenant, discovery
    ends there with that error: the subscriptions of that tenant are not
    listed, the tenants behind it are not looked at, and the settings are
    as they were. *)
Theorem token_error_ends_discovery (az : Azure) (conf : Viper) (common : Token)
    (subscription : string) (entries : list (string * list Subscription))
    (tenant : string) (rest : Listing TenantIDDescription) (err : error) :
  Forall (passedOver az common subscription) entries ->
  Tenants az (NewBearerAuthorizer (DeviceToken common)) =
    Listing_app (tenantsOf entries) (ListItem (mkTenant (Some tenant)) rest) ->
  OAuthConfig_refused az (ActiveDirectoryEndpoint az) tenant = None ->
  ManualToken_refused az (mkOAuthConfig (ActiveDirectoryEndpoint az) tenant)
    deviceClientID (ResourceManagerEndpoint az)
    (mkToken EmptyString (RefreshToken common)) = Some err ->
  getTenant az conf common subscription =
    (Fail err, conf,
     CallListTenants (NewBearerAuthorizer (DeviceToken common))
       :: concat (map (fun entry => scanned az common entry.1 entry.2) entries)
       ++ [CallTokenFromManualToken tenant]).
Proof.
  intros Hpassed Htenants Hconfig Htoken. unfold getTenant. rewrite Htenants.
  rewrite tenantLoop_passed by exact Hpassed.
  simpl. unfold adal_NewOAuthConfig. rewrite Hconfig.
  unfold adal_NewServicePrincipalTokenFromManualToken. rewrite Htoken. reflexivity.
Qed.

Lemma token_error_ends_discovery_witness :
  getTenant secondTokenRefused ∅ someToken targetSubscription =
    (Fail (errorString "parameter 'resource' cannot be empty"), ∅,
     [CallListTenants (NewBearerAuthorizer (DeviceToken someToken));
      CallTokenFromManualToken "tenant-1";
      CallListSubscriptions (tenantAuthorizer secondTokenRefused someToken "tenant-1");
      CallCompare "tenant-1" (mkSubscription (Some "11111111-0000-4000-8000-000000000001"));
      CallCompare "tenant-1" (mkSubscription None);
      CallTokenFromManualToken "tenant-2"]).
Proof.
  assert (Hpassed : Forall (passedOver secondTokenRefused someToken targetSubscription)
                      [("tenant-1", otherSubscriptions)]) by (repeat constructor).
  exact (token_error_ends_discovery secondTokenRefused ∅ someToken targetSubscription
           [("tenant-1", otherSubscriptions)] "tenant-2"
           (ListItem (mkTenant (Some "tenant-3")) ListEnd) tokenRefused
           Hpassed eq_refl eq_refl eq_refl).
Defined.

(** ** More on the credentials *)

Ltac failed_before_any_call :=
  split; [reflexivity | split; [left; reflexivity | intros ? Hauth; discriminate Hauth]].

(** X9: service-principal authentication never prompts and never
    discovers.  When device authentication is not selected,
    [getAuthorizer] leaves the settings alone and makes at most one call,
    the request for the service-principal token; and when it returns an
    authorizer, the tenant was given and the authorizer is the service
    principal of exactly the client ID, secret and tenant passed in. *)
Theorem service_principal_never_prompts (az : Azure) (conf : Viper)
    (subscriptionID clientID clientSecret tenantID : string) :
  GetBool conf DeviceAuthName = false ->
  let res := getAuthorizer az conf subscriptionID clientID clientSecret tenantID in
  res.1.2 = conf
  /\ (res.2 = [] \/ res.2 = [CallServicePrincipalToken clientID])
  /\ forall auth : Authorizer,
       res.1.1 = Return auth ->
       tenantID <> EmptyString /\ tenantID <> commonTenant
       /\ auth = NewBearerAuthorizer
                   (ServicePrincipalSecret
                      (mkOAuthConfig (ActiveDirectoryEndpoint az) tenantID)
                      clientID clientSecret (ResourceManagerEndpoint az)).
Proof.
  intros Hdevice res. subst res. unfold getAuthorizer. rewrite Hdevice.
  destruct (decide (tenantID = EmptyString)) as [->|Hgiven].
  - unfold adal_NewOAuthConfig.
    destruct (OAuthConfig_refused az _ commonTenant); simpl; failed_before_any_call.
  - unfold adal_NewOAuthConfig.
    destruct (OAuthConfig_refused az _ tenantID); simpl; [failed_before_any_call|].
    destruct (decide (tenantID = commonTenant)) as [->|Hnot]; simpl;
      [failed_before_any_call|].
    unfold adal_NewServicePrincipalToken.
    destruct (ServicePrincipalToken_refused az _ clientID clientSecret _); simpl.
    + split; [reflexivity | split; [right; reflexivity | intros auth Hauth; discriminate Hauth]].
    + split; [reflexivity | split; [right; reflexivity |]].
      intros auth Hauth. injection Hauth as <-. auto.
Qed.

Lemma service_principal_never_prompts_witness :
  let res := getAuthorizer publicCloud servicePrincipalRun targetSubscription
               "6f1c0a52-app" "s3cret" "72f988bf-tenant" in
  res.1.2 = servicePrincipalRun
  /\ (res.2 = [] \/ res.2 = [CallServicePrincipalToken "6f1c0a52-app"])
  /\ forall auth : Authorizer,
       res.1.1 = Return auth ->
       "72f988bf-tenant" <> EmptyString /\ "72f988bf-tenant" <> commonTenant
       /\ auth = NewBearerAuthorizer
                   (ServicePrincipalSecret
                      (mkOAuthConfig (ActiveDirectoryEndpoint publicCloud) "72f988bf-tenant")
                      "6f1c0a52-app" "s3cret" (ResourceManagerEndpoint publicCloud)).
Proof.
  assert (Hdevice : GetBool servicePrincipalRun DeviceAuthName = false)
    by (vm_compute; reflexivity).
  exact (service_principal_never_prompts publicCloud servicePrincipalRun targetSubscription
           "6f1c0a52-app" "s3cret" "72f988bf-tenant" Hdevice).
Defined.

(** X10: with device authentication selected, the client ID and the
    client secret are ignored: whatever they are, [getAuthorizer] returns
    the same result, writes the same settings and makes the same calls. *)
Theorem device_flow_ignores_credentials (az : Azure) (conf : Viper)
    (subscriptionID clientID clientSecret clientID' clientSecret' tenantID : string) :
  GetBool conf DeviceAuthName = true ->
  getAuthorizer az conf subscriptionID clientID clientSecret tenantID =
    getAuthorizer az conf subscriptionID clientID' clientSecret' tenantID.
Proof.
  intros Hdevice. unfold getAuthorizer. rewrite Hdevice. reflexivity.
Qed.

Lemma device_flow_ignores_credentials_witness :
  getAuthorizer signedIn deviceRun targetSubscription "6f1c0a52-app" "s3cret" "" =
    getAuthorizer signedIn deviceRun targetSubscription "" "" "".
Proof.
  assert (Hdevice : GetBool deviceRun DeviceAuthName = true) by (vm_compute; reflexivity).
  exact (device_flow_ignores_credentials signedIn deviceRun targetSubscription
           "6f1c0a52-app" "s3cret" "" "" "" Hdevice).
Defined.

(** X11: what [getAuthorizer] does to the settings, and when it looks for
    the tenant.  A tenant that is given, and is not "common", is never
    second-guessed: no tenant or subscription is listed and the settings
    are as they were.  In every case the settings change only when an
    authorizer is returned, and then only by the tenant that discovery
    found, stored under "tenant-id", the authorizer being the one built
    for that tenant; and the tenant "common" is treated as no tenant. *)
Theorem getAuthorizer_settings (az : Azure) (conf : Viper)
    (subscriptionID clientID clientSecret tenantID : string) :
  let res := getAuthorizer az conf subscriptionID clientID clientSecret tenantID in
  (tenantID <> EmptyString -> tenantID <> commonTenant ->
     res.1.2 = conf /\ Forall (fun c => ~ isDiscovery c) res.2)
  /\ (res.1.2 = conf
      \/ exists (intermediate : Token) (tenant : string),
           res.1.1 = Return (tenantAuthorizer az intermediate tenant)
           /\ res.1.2 = <[TenantIDName := VString tenant]> conf)
  /\ getAuthorizer az conf subscriptionID clientID clientSecret commonTenant =
       getAuthorizer az conf subscriptionID clientID clientSecret EmptyString.
Proof.
  intros res. subst res. split; [|split].
  - intros Hgiven Hnot. unfold getAuthorizer.
    destruct (decide (tenantID = EmptyString)); [contradiction|].
    destruct (adal_NewOAuthConfig az _ tenantID) as [err|config];
      [split; [reflexivity | constructor]|].
    destruct (decide (tenantID = commonTenant)); [contradiction|].
    destruct (GetBool conf DeviceAuthName).
    + destruct (DeviceAuth az config _ _) as [err|code]; simpl;
        [split; [reflexivity | repeat constructor; simpl; tauto]|].
      destruct (Message code) as [text|]; simpl;
        [|split; [reflexivity | repeat constructor; simpl; tauto]].
      destruct (UserCompletion az code); simpl;
        (split; [reflexivity | repeat constructor; simpl; tauto]).
    + destruct (adal_NewServicePrincipalToken az config _ _ _); simpl;
        (split; [reflexivity | repeat constructor; simpl; tauto]).
  - unfold getAuthorizer.
    destruct (adal_NewOAuthConfig az _ _) as [err|config]; [left; reflexivity|].
    destruct (GetBool conf DeviceAuthName).
    + destruct (DeviceAuth az config _ _) as [err|code]; [left; reflexivity|].
      destruct (Message code) as [text|]; [|left; reflexivity].
      destruct (UserCompletion az code) as [err|intermediate]; [left; reflexivity|].
      destruct (decide (_ = commonTenant)); [|left; reflexivity].
      unfold getTenant.
      pose proof (tenantLoop_outcome az intermediate subscriptionID
                    (Tenants az (NewBearerAuthorizer (DeviceToken intermediate))) conf)
        as Hloop.
      destruct (tenantLoop az intermediate subscriptionID _ conf)
        as [[[[tenant auth]|failed|] conf'] calls]; simpl; try (left; exact Hloop).
      destruct Hloop as (_ & -> & -> & _).
      right. exists intermediate, tenant. split; reflexivity.
    + destruct (decide (_ = commonTenant)); [left; reflexivity|].
      destruct (adal_NewServicePrincipalToken az config _ _ _); left; reflexivity.
  - reflexivity.
Qed.

(** X12: no credentials means the device flow.  When a subscription is
    given and neither a client ID nor a client secret is, [Args] turns
    device authentication on before the rest of it runs; and with the
    settings it leaves, [getAuthorizer] starts with the device code
    request (once the OAuth configuration is built) and never asks for a
    service-principal token.  With both credentials given, [Args] leaves
    the settings to the rest of it unchanged. *)
Theorem no_credentials_means_device_flow
    (tail : Viper -> Viper * option error) (conf : Viper) (az : Azure)
    (subscriptionID clientID clientSecret tenantID : string) :
  GetString conf SubscriptionName <> EmptyString ->
  let forced := <[DeviceAuthName := VBool true]> conf in
  let asked := if decide (tenantID = EmptyString) then commonTenant else tenantID in
  (GetString conf ClientIDName = EmptyString ->
   GetString conf ClientSecretName = EmptyString ->
   provisionCmd_Args tail conf = tail forced
   /\ (OAuthConfig_refused az (ActiveDirectoryEndpoint az) asked = None ->
       exists rest : list Call,
         (getAuthorizer az forced subscriptionID clientID clientSecret tenantID).2 =
           CallInitiateDeviceAuth (mkOAuthConfig (ActiveDirectoryEndpoint az) asked) :: rest
         /\ Forall (fun c => c <> CallServicePrincipalToken clientID) rest))
  /\ (GetString conf ClientIDName <> EmptyString ->
      GetString conf ClientSecretName <> EmptyString ->
      provisionCmd_Args tail conf = tail conf).
Proof.
  intros Hsub forced asked. split.
  - intros Hid Hsecret. split.
    + unfold provisionCmd_Args.
      destruct (decide (GetString conf SubscriptionName = EmptyString)); [contradiction|].
      rewrite !bool_decide_eq_false_2 by (intros Hn; apply Hn; assumption).
      reflexivity.
    + intros Hconfig. unfold getAuthorizer. fold asked.
      unfold adal_NewOAuthConfig. rewrite Hconfig.
      assert (Hforced : GetBool forced DeviceAuthName = true).
      { unfold GetBool, forced. rewrite lookup_insert_eq. reflexivity. }
      rewrite Hforced.
      destruct (DeviceAuth az _ _ _) as [err|code]; [eexists; split; [reflexivity|constructor]|].
      destruct (Message code) as [text|]; [|eexists; split; [reflexivity|constructor]].
      destruct (UserCompletion az code) as [err|intermediate];
        [eexists; split; [reflexivity | repeat constructor; discriminate]|].
      destruct (decide (asked = commonTenant));
        [|eexists; split; [reflexivity | repeat constructor; discriminate]].
      destruct (getTenant az forced intermediate subscriptionID) as [[found conf'] calls] eqn:Hget.
      assert (Hcalls : Forall (fun c => c <> CallServicePrincipalToken clientID) calls).
      { unfold getTenant in Hget.
        destruct (tenantLoop az intermediate subscriptionID _ forced) as [[out c'] calls'] eqn:Hloop.
        injection Hget as _ _ <-. constructor; [discriminate|].
        clear -Hloop. revert out c' calls' Hloop.
        generalize (Tenants az (NewBearerAuthorizer (DeviceToken intermediate))) as l.
        induction l as [|[[tenant|]] rest IH|err]; simpl; intros out c' calls' Hloop;
          try (injection Hloop as _ _ <-; constructor).
        unfold adal_NewOAuthConfig, adal_NewServicePrincipalTokenFromManualToken in Hloop.
        destruct (OAuthConfig_refused az _ tenant); [injection Hloop as _ _ <-; constructor|].
        destruct (ManualToken_refused az _ _ _ _);
          [injection Hloop as _ _ <-; repeat constructor; discriminate|].
        assert (Hsubs : forall l' scan compared,
                  subscriptionLoop subscriptionID tenant l' = (scan, compared) ->
                  Forall (fun c => c <> CallServicePrincipalToken clientID) compared).
        { clear. induction l' as [|sub rest' IH'|e]; simpl; intros scan compared Hl;
            try (injection Hl as _ <-; constructor).
          destruct (subscriptionMatches subscriptionID sub).
          - injection Hl as _ <-. repeat constructor. discriminate.
          - destruct (subscriptionLoop subscriptionID tenant rest') as [scan' compared'].
            injection Hl as _ <-. constructor; [discriminate|]. eapply IH'. reflexivity. }
        destruct (subscriptionLoop subscriptionID tenant _) as [[|e] compared] eqn:Hinner.
        - injection Hloop as _ _ <-. repeat (constructor; [discriminate|]).
          eapply Hsubs, Hinner.
        - destruct (tenantLoop az intermediate subscriptionID rest forced)
            as [[out' c''] calls''] eqn:Hrest.
          injection Hloop as _ _ <-. simpl. repeat (constructor; [discriminate|]).
          apply Forall_app. split; [eapply Hsubs, Hinner | eapply IH; reflexivity]. }
      destruct found as [[tenant final]|err|]; simpl;
        (eexists; split; [reflexivity|]);
        (repeat (constructor; [discriminate|])); exact Hcalls.
  - intros Hid Hsecret. unfold provisionCmd_Args.
    destruct (decide (GetString conf SubscriptionName = EmptyString)); [contradiction|].
    rewrite !bool_decide_eq_true_2 by assumption. reflexivity.
Qed.

Lemma no_credentials_means_device_flow_witness :
  let forced := <[DeviceAuthName := VBool true]> noCredentials in
  provisionCmd_Args acceptAll noCredentials = acceptAll forced
  /\ exists rest : list Call,
       (getAuthorizer signedIn forced targetSubscription "" "" "").2 =
         CallInitiateDeviceAuth (mkOAuthConfig (ActiveDirectoryEndpoint signedIn) commonTenant)
           :: rest
       /\ Forall (fun c => c <> CallServicePrincipalToken "") rest.
Proof.
  assert (Hsub : GetString noCredentials SubscriptionName <> EmptyString)
    by (vm_compute; discriminate).
  assert (Hid : GetString noCredentials ClientIDName = EmptyString)
    by (vm_compute; reflexivity).
  assert (Hsecret : GetString noCredentials ClientSecretName = EmptyString)
    by (vm_compute; reflexivity).
  destruct (proj1 (no_credentials_means_device_flow acceptAll noCredentials signedIn
                     targetSubscription "" "" "" Hsub) Hid Hsecret) as [Hargs Hflow].
  split; [exact Hargs | exact (Hflow eq_refl)].
Defined.

(** ** More on the resource group and on the sanitized copy *)

(** X13: what [insertResourceGroup] asks of its client and how it reads
    the answers, for every client.  [CreateOrUpdate] is called only after
    the existence check answered 404, once, with the location passed in;
    created = true is reported exactly when that call answered 201, and
    never together with an error; and no error is reported exactly when
    the check answered 204, or answered 404 and the creation 201 or
    200. *)
Theorem insertResourceGroup_outcome {S : Type} `{GroupsClient S}
    (groups : S) (name location : string) :
  let res := insertResourceGroup groups name location in
  let checked := CheckExistence groups name in
  let made := CreateOrUpdate checked.2 name (mkGroup (Some location)) in
  (checked.1 <> inr http_StatusNotFound ->
     res.2 = checked.2 /\ res.1.1 = false
     /\ (res.1.2 = None <-> checked.1 = inr http_StatusNoContent))
  /\ (checked.1 = inr http_StatusNotFound ->
      res.2 = made.2
      /\ (res.1.1 = true <-> made.1 = inr http_StatusCreated)
      /\ (res.1.2 = None <->
          made.1 = inr http_StatusCreated \/ made.1 = inr http_StatusOK))
  /\ (res.1.1 = true -> res.1.2 = None).
Proof.
  intros res checked made. subst res checked made. unfold insertResourceGroup.
  destruct (CheckExistence groups name) as [[err|code] groups']; cbn [fst snd].
  - repeat split; try discriminate.
  - destruct (decide (code = http_StatusNoContent)) as [->|Hno]; cbn [fst snd].
    { repeat split; try discriminate; congruence. }
    destruct (decide (code = http_StatusNotFound)) as [->|Hnf]; cbn [fst snd].
    + destruct (CreateOrUpdate groups' name (mkGroup (Some location)))
        as [[err|created] groups'']; cbn [fst snd].
      { repeat split; try discriminate; try congruence. intros [?|?]; discriminate. }
      destruct (decide (created = http_StatusCreated)) as [->|Hnc]; cbn [fst snd].
      { repeat split; try discriminate; try congruence; auto. }
      destruct (decide (created = http_StatusOK)) as [->|Hnk]; cbn [fst snd].
      { repeat split; try discriminate; try congruence; auto. }
      repeat split; try discriminate; try congruence. intros [?|?]; congruence.
    + repeat split; try discriminate; try congruence.
Qed.

(** X14: against a resource manager that answers as the service does,
    [insertResourceGroup] ensures the group, from any state.  It never
    fails; it reports created = true exactly when the group was absent;
    afterwards the group exists, in the region it had if it was there and
    in the region asked for if it was not; every other group is as it
    was; and a further call, for whatever region, reports created = false
    and no error. *)
Theorem insertResourceGroup_ensures (arm : ResourceManager)
    (name location location' : string) :
  let res := insertResourceGroup arm name location in
  res.1.2 = None
  /\ (res.1.1 = true <-> resourceGroups arm !! name = None)
  /\ resourceGroups res.2 !! name =
       Some (default (mkGroup (Some location)) (resourceGroups arm !! name))
  /\ (forall other : string,
        other <> name -> resourceGroups res.2 !! other = resourceGroups arm !! other)
  /\ (insertResourceGroup res.2 name location').1 = (false, None).
Proof.
  intros res.
  destruct (resourceGroups arm !! name) as [present|] eqn:Hname.
  - assert (Hres : res = ((false, None),
                          mkResourceManager (resourceGroups arm)
                            (received arm ++ [HeadGroup name]))).
    { unfold res. apply insertResourceGroup_present.
      simpl. unfold ResourceManager_head. rewrite Hname. reflexivity. }
    rewrite Hres. cbn [fst snd resourceGroups]. rewrite Hname.
    repeat split; try discriminate.
    erewrite insertResourceGroup_present; [reflexivity|].
    simpl. unfold ResourceManager_head. cbn [resourceGroups]. rewrite Hname. reflexivity.
  - assert (Hres : res = ((true, None),
                          mkResourceManager
                            (<[name := mkGroup (Some location)]> (resourceGroups arm))
                            ((received arm ++ [HeadGroup name])
                               ++ [PutGroup name (mkGroup (Some location))]))).
    { unfold res. eapply insertResourceGroup_absent.
      - simpl. unfold ResourceManager_head. rewrite Hname. reflexivity.
      - simpl. unfold ResourceManager_put. cbn [resourceGroups received].
        rewrite Hname. reflexivity. }
    rewrite Hres. cbn [fst snd resourceGroups].
    split; [reflexivity|]. split; [tauto|]. split; [apply lookup_insert_eq|].
    split; [intros other Hother; apply lookup_insert_ne; congruence|].
    erewrite insertResourceGroup_present; [reflexivity|].
    simpl. unfold ResourceManager_head. cbn [resourceGroups].
    rewrite lookup_insert_eq. reflexivity.
Qed.

Section SanitizeMore.

Context {any : Type}.
Implicit Types (h : Heap any) (kvs : gmap string (DeploymentParameter any)).

(** X15: the copy shares nothing with the original.  [stripPasswords]
    returns a new struct whose [Parameters] is a new map, never the nil
    map, also when the map of the original is nil; so an entry assigned
    through the original afterwards does not show in the copy, and an
    entry assigned through the copy does not show in the original. *)
Theorem stripPasswords_copy_is_separate (defaults : string * string) h (original : ptr)
    (schema version : string) kvs :
  contents h original = Some (schema, version, kvs) ->
  exists (copy : ptr) h' (c o : DeploymentParameters) (m : ptr),
    stripPasswords defaults original h = Some (copy, h')
    /\ structs h !! copy = None
    /\ structs h' !! copy = Some c
    /\ Parameters c = Some m
    /\ maps h !! m = None
    /\ structs h' !! original = Some o
    /\ (forall (k : string) (v : DeploymentParameter any) h'',
          mapassign (Parameters o) k v h' = Some (tt, h'') ->
          contents h'' copy = contents h' copy)
    /\ (forall (k : string) (v : DeploymentParameter any) h'',
          mapassign (Parameters c) k v h' = Some (tt, h'') ->
          contents h'' original = contents h' original).
Proof.
  intros (s & Hs & <- & <- & Hentries)%contents_Some.
  pose proof (stripPasswords_run defaults h original s kvs Hs Hentries) as Hrun.
  cbv zeta in Hrun.
  set (m0 := fresh (dom (maps h))) in *.
  set (m1 := fresh (dom (<[m0 := ∅]> (maps h)))) in *.
  set (copy := fresh (dom (structs h))) in *.
  assert (Hcopy : structs h !! copy = None) by (apply not_elem_of_dom, is_fresh).
  assert (Hm0 : maps h !! m0 = None) by (apply not_elem_of_dom, is_fresh).
  assert (Hm1 : (<[m0 := ∅]> (maps h)) !! m1 = None) by (apply not_elem_of_dom, is_fresh).
  assert (Hm10 : m0 <> m1).
  { intros Heq. rewrite <- Heq, lookup_insert_eq in Hm1. discriminate. }
  assert (Hfresh : maps h !! m1 = None).
  { rewrite lookup_insert_ne in Hm1 by exact Hm10. exact Hm1. }
  assert (Hne : copy <> original) by congruence.
  eexists copy, _, (mkDeploymentParameters (Schema s) (ContentVersion s) (Some m1)), s, m1.
  split; [exact Hrun|]. cbn [structs maps].
  split; [exact Hcopy|]. split; [apply lookup_insert_eq|]. split; [reflexivity|].
  split; [exact Hfresh|].
  split; [rewrite lookup_insert_ne by exact Hne; exact Hs|].
  split.
  - intros k v h'' Hassign. unfold mapassign in Hassign.
    destruct (Parameters s) as [mp|] eqn:Hmp; [|discriminate].
    cbn [maps structs] in Hassign.
    destruct (_ !! mp) as [cur|] eqn:Hcur in Hassign; [|discriminate].
    injection Hassign as <-.
    assert (Hmp1 : mp <> m1).
    { intros ->. unfold entries in Hentries. rewrite Hfresh in Hentries. discriminate. }
    unfold contents. cbn [structs maps]. rewrite lookup_insert_eq.
    cbn [Parameters]. rewrite lookup_insert_ne by exact Hmp1. reflexivity.
  - intros k v h'' Hassign. unfold mapassign in Hassign.
    cbn [Parameters maps structs] in Hassign. rewrite lookup_insert_eq in Hassign.
    injection Hassign as <-.
    unfold contents. cbn [structs maps]. rewrite lookup_insert_ne by exact Hne.
    rewrite Hs. destruct (Parameters s) as [mp|] eqn:Hmp; [|reflexivity].
    assert (Hmp1 : mp <> m1).
    { intros ->. unfold entries in Hentries. rewrite Hfresh in Hentries. discriminate. }
    rewrite !(lookup_insert_ne _ m1 mp) by congruence. reflexivity.
Qed.

End SanitizeMore.

Lemma stripPasswords_copy_is_separate_witness :
  exists (copy : ptr) (h' : Heap string) (c o : DeploymentParameters) (m : ptr),
    stripPasswords (parametersSchema, "1.0.0.0") 3%positive nilMapSet = Some (copy, h')
    /\ structs nilMapSet !! copy = None
    /\ structs h' !! copy = Some c
    /\ Parameters c = Some m
    /\ maps nilMapSet !! m = None
    /\ structs h' !! 3%positive = Some o
    /\ (forall (k : string) (v : DeploymentParameter string) (h'' : Heap string),
          mapassign (Parameters o) k v h' = Some (tt, h'') ->
          contents h'' copy = contents h' copy)
    /\ (forall (k : string) (v : DeploymentParameter string) (h'' : Heap string),
          mapassign (Parameters c) k v h' = Some (tt, h'') ->
          contents h'' 3%positive = contents h' 3%positive).
Proof.
  assert (Hc : contents nilMapSet 3%positive = Some (parametersSchema, "1.0.0.0", ∅))
    by (vm_compute; reflexivity).
  exact (stripPasswords_copy_is_separate (parametersSchema, "1.0.0.0") nilMapSet 3%positive
           parametersSchema "1.0.0.0" ∅ Hc).
Defined.

(** ** The template *)

(** X16: a location is a link exactly when [url.ParseRequestURI] accepts
    it and its scheme is "http" or "https" up to the case of the letters;
    a text that does not parse, or parses with another scheme or with
    none, is a path. *)
Theorem isSupportedLink_spec (host : Host) (subject : string) :
  isSupportedLink host subject = true <->
  exists parsed : url_URL,
    url_ParseRequestURI host subject = inr parsed
    /\ (EqualFold (Scheme parsed) "http" = true \/ EqualFold (Scheme parsed) "https" = true).
Proof.
  unfold isSupportedLink.
  destruct (url_ParseRequestURI host subject) as [err|parsed].
  - split; [discriminate | intros (p & Hp & _); discriminate].
  - rewrite bool_decide_eq_true. unfold supportedLinkSchemes, normalizeScheme.
    rewrite elem_of_union, !elem_of_singleton, <- !EqualFold_ToLower.
    split.
    + intros Hscheme. exists parsed. split; [reflexivity | exact Hscheme].
    + intros (p & Hp & Hscheme). injection Hp as <-. exact Hscheme.
Qed.

(** X17: a template behind a link comes from the network alone.  The
    files of the host play no part; at most 15 requests are sent; an
    error of the download is returned as it is, with no template; and a
    template that is returned is exactly the body of a 200 answer to the
    last request sent, read to its end. *)
Theorem getDeploymentTemplate_remote (host : Host) (net : Transport) (raw : string) :
  isSupportedLink host raw = true ->
  let res := getDeploymentTemplate host net raw in
  (forall files : string -> error + Reader,
     getDeploymentTemplate (mkHost (url_ParseRequestURI host) files) net raw = res)
  /\ (length res.2 <= maxRedirects * maxRetries)%nat
  /\ (forall err : error, (downloadTemplate net [] raw).1 = Some err -> res.1 = inl err)
  /\ (forall props : DeploymentProperties,
        res.1 = inr props ->
        exists (resp : Response) (before : list Request) (req : Request),
          res.2 = before ++ [req]
          /\ RoundTrip net before req = inr resp
          /\ StatusCode resp = 200
          /\ failure (Body resp) = None
          /\ Template props = delivered (Body resp)).
Proof.
  intros Hlink res. subst res. unfold getDeploymentTemplate.
  assert (Hlink' : forall files,
            isSupportedLink (mkHost (url_ParseRequestURI host) files) raw = true)
    by (intros files; exact Hlink).
  split; [intros files; rewrite Hlink', Hlink; reflexivity|].
  rewrite Hlink. unfold downloadTemplate.
  destruct (download_advanced net maxRedirects 1 raw (mkDownload [] []) eq_refl)
    as (extra & Hsent & Hlen & _ & Hdest).
  destruct (download net 1 raw (mkDownload [] [])) as [[err|] st]; cbn [fst snd] in *.
  - split; [rewrite Hsent, Nat.mul_comm; exact Hlen|].
    split; [intros e He; injection He as <-; reflexivity|].
    intros props Hprops. discriminate Hprops.
  - split; [rewrite Hsent, Nat.mul_comm; exact Hlen|].
    split; [intros e He; discriminate He|].
    intros props Hprops. injection Hprops as <-.
    destruct Hdest as [[Hfailed _] | (resp & before & req & Hlast & Hanswer & Hcode & Herr & Hbody)];
      [contradiction|].
    exists resp, before, req.
    split; [exact Hlast|]. split; [exact Hanswer|]. split; [exact Hcode|].
    split; [symmetry; exact Herr|].
    cbn [Template]. rewrite Hbody. reflexivity.
Qed.

Lemma getDeploymentTemplate_remote_witness :
  let res := getDeploymentTemplate workstation movedOnce "HTTP://a" in
  (forall files : string -> error + Reader,
     getDeploymentTemplate (mkHost (url_ParseRequestURI workstation) files) movedOnce "HTTP://a"
       = res)
  /\ (length res.2 <= maxRedirects * maxRetries)%nat
  /\ (forall err : error,
        (downloadTemplate movedOnce [] "HTTP://a").1 = Some err -> res.1 = inl err)
  /\ (forall props : DeploymentProperties,
        res.1 = inr props ->
        exists (resp : Response) (before : list Request) (req : Request),
          res.2 = before ++ [req]
          /\ RoundTrip movedOnce before req = inr resp
          /\ StatusCode resp = 200
          /\ failure (Body resp) = None
          /\ Template props = delivered (Body resp)).
Proof.
  assert (Hlink : isSupportedLink workstation "HTTP://a" = true) by (vm_compute; reflexivity).
  exact (getDeploymentTemplate_remote workstation movedOnce "HTTP://a" Hlink).
Defined.

(** X18: a template at a path comes from the file alone.  No request is
    sent and the network plays no part; the content of the file is the
    template when it is read to its end, and the error of [os.Open] or of
    the reading is returned as it is, with no template. *)
Theorem getDeploymentTemplate_local (host : Host) (net : Transport) (raw : string) :
  isSupportedLink host raw = false ->
  let res := getDeploymentTemplate host net raw in
  res.2 = []
  /\ (forall net' : Transport, getDeploymentTemplate host net' raw = res)
  /\ (forall err : error, os_Open host raw = inl err -> res.1 = inl err)
  /\ (forall handle : Reader,
        os_Open host raw = inr handle ->
        res.1 = match failure handle with
                | Some err => inl err
                | None => inr (mkDeploymentProperties (delivered handle))
                end).
Proof.
  intros Hpath res. subst res. unfold getDeploymentTemplate. rewrite Hpath.
  unfold ioutil_ReadAll.
  destruct (os_Open host raw) as [err|handle].
  - cbn [fst snd]. split; [reflexivity|]. split; [reflexivity|].
    split; [intros failed Hfailed; injection Hfailed as <-; reflexivity|].
    intros opened Hopened. discriminate Hopened.
  - split; [destruct (failure handle); reflexivity|].
    split; [reflexivity|].
    split; [intros failed Hfailed; discriminate Hfailed|].
    intros opened Hopened. injection Hopened as <-.
    destruct (failure handle); reflexivity.
Qed.

Lemma getDeploymentTemplate_local_witness :
  getDeploymentTemplate workstation unplugged "./azuredeploy.json" =
    (inr (mkDeploymentProperties templateBody), []).
Proof.
  assert (Hpath : isSupportedLink workstation "./azuredeploy.json" = false)
    by (vm_compute; reflexivity).
  destruct (getDeploymentTemplate_local workstation unplugged "./azuredeploy.json" Hpath)
    as (Hsent & _ & _ & Hfile).
  specialize (Hfile (mkReader templateBody None) eq_refl). cbn [failure delivered] in Hfile.
  destruct (getDeploymentTemplate workstation unplugged "./azuredeploy.json") as [out reqs].
  cbn [fst snd] in *. rewrite Hsent, Hfile. reflexivity.
Defined.

(** ** The defaults taken from the parameter file *)

Section DefaultsFacts.

Context {any : Type}.
Implicit Types (conf : Settings any) (params : gmap string (DeploymentParameter any)).

Lemma explicit_defaultFrom params (parameter key : string) conf :
  explicit (defaultFrom params parameter key conf) = explicit conf.
Proof. unfold defaultFrom. destruct (params !! parameter); reflexivity. Qed.

(** One block read through [Get]: the key it is about reads, unless a
    value was given for it, as the parameter when there is one. *)
Lemma Get_defaultFrom params (parameter key : string) conf (k : string) :
  viper_Get (defaultFrom params parameter key conf) k =
    if decide (k = key) then
      match explicit conf !! k with
      | Some v => Some v
      | None => match params !! parameter with
                | Some p => Some (Value p)
                | None => viper_Get conf k
                end
      end
    else viper_Get conf k.
Proof.
  unfold defaultFrom, viper_Get.
  destruct (params !! parameter) as [p|]; cbn [SetDefault explicit fallback].
  - destruct (decide (k = key)) as [->|Hne].
    + rewrite lookup_insert_eq. reflexivity.
    + rewrite lookup_insert_ne by congruence. reflexivity.
  - destruct (decide (k = key)); [|reflexivity].
    destruct (explicit conf !! k); reflexivity.
Qed.

Lemma defaultFrom_delete params (parameter key removed : string) conf :
  removed <> parameter ->
  defaultFrom (delete removed params) parameter key conf =
    defaultFrom params parameter key conf.
Proof. intros Hne. unfold defaultFrom. rewrite lookup_delete_ne by exact Hne. reflexivity. Qed.

Ltac decide_names :=
  match goal with
  | |- context [decide (?a = ?b)] =>
    destruct (decide (a = b));
    [try (match goal with H : a = b |- _ => discriminate H end)
    |try (exfalso; match goal with H : a <> b |- _ => apply H; reflexivity end)]
  end.

(** X19: defaults never win over a value that was given.  [setDefaults]
    leaves every value given for a key as it reads; for each of the eight
    parameters it knows, the value in the parameter file is what the
    setting reads when nothing was given for it, and the setting reads as
    before when the file lacks the parameter; every other setting reads
    as before. *)
Theorem setDefaults_reads conf params :
  explicit (setDefaults conf params) = explicit conf
  /\ (forall (key : string) (v : any),
        explicit conf !! key = Some v -> viper_Get (setDefaults conf params) key = Some v)
  /\ (forall (parameter key : string),
        (parameter, key) ∈ parameterSettings ->
        explicit conf !! key = None ->
        viper_Get (setDefaults conf params) key =
          match params !! parameter with
          | Some p => Some (Value p)
          | None => viper_Get conf key
          end)
  /\ (forall key : string,
        key ∉ parameterSettings.*2 ->
        viper_Get (setDefaults conf params) key = viper_Get conf key).
Proof.
  assert (Hexplicit : explicit (setDefaults conf params) = explicit conf).
  { unfold setDefaults. rewrite !explicit_defaultFrom. reflexivity. }
  split; [exact Hexplicit|]. split; [|split].
  - intros key v Hkey. unfold viper_Get at 1. rewrite Hexplicit, Hkey. reflexivity.
  - intros parameter key Hin Hkey. unfold setDefaults.
    unfold parameterSettings in Hin.
    repeat (apply elem_of_cons in Hin as [Hin|Hin]; [injection Hin as -> ->|]);
      [..|apply elem_of_nil in Hin; contradiction];
      repeat (rewrite Get_defaultFrom, ?explicit_defaultFrom, ?Hkey; decide_names);
      try reflexivity;
      destruct (params !! _); reflexivity.
  - intros key Hout. unfold setDefaults.
    repeat (rewrite Get_defaultFrom;
            match goal with
            | |- context [decide (key = ?b)] =>
              destruct (decide (key = b));
              [exfalso; apply Hout; subst key; cbn;
               repeat (first [apply list_elem_of_here | apply list_elem_of_further])|]
            end).
    reflexivity.
Qed.

(** X20: the passwords of a parameter file never become defaults.
    [setDefaults] reads neither [databaseAdministratorLoginPassword] nor
    [dockerRegistryServerPassword]: with or without them in the file the
    settings it leaves are the same, and the settings "db-password" and
    "docker-registry-password" read as before. *)
Theorem setDefaults_ignores_passwords conf params :
  setDefaults conf (delete registryPasswordKey (delete databasePasswordKey params)) =
    setDefaults conf params
  /\ viper_Get (setDefaults conf params) DatabasePasswordName =
       viper_Get conf DatabasePasswordName
  /\ viper_Get (setDefaults conf params) DockerRegistryPasswordName =
       viper_Get conf DockerRegistryPasswordName.
Proof.
  split; [|split].
  - unfold setDefaults. cbv zeta.
    rewrite !(defaultFrom_delete _ _ _ registryPasswordKey) by discriminate.
    rewrite !(defaultFrom_delete _ _ _ databasePasswordKey) by discriminate.
    reflexivity.
  - unfold setDefaults.
    repeat (rewrite Get_defaultFrom; decide_names).
    reflexivity.
  - unfold setDefaults.
    repeat (rewrite Get_defaultFrom; decide_names).
    reflexivity.
Qed.

End DefaultsFacts.

(** ** The client secret on the help screen *)

Lemma length_append (s t : string) :
  String.length (s +:+ t) = (String.length s + String.length t)%nat.
Proof. induction s as [|c s IH]; simpl; [reflexivity | rewrite IH; reflexivity]. Qed.

Lemma substring_all (t : string) : String.substring 0 (String.length t) t = t.
Proof. induction t as [|c t IH]; simpl; [reflexivity | rewrite IH; reflexivity]. Qed.

Lemma substring_append (s t : string) :
  String.substring (String.length s) (String.length t) (s +:+ t) = t.
Proof. induction s as [|c s IH]; simpl; [apply substring_all | exact IH]. Qed.

(** X21: the help screen shows of a client secret at most its last ten
    bytes.  For a secret longer than ten bytes the text is "..." followed
    by its last ten bytes, so two secrets with the same ending are shown
    alike; a secret of one to ten bytes is shown as "[redacted]"; and no
    secret leads to the empty text. *)
Theorem sanitizedClientSecret_shows_ending (hidden shown : string) :
  hidden <> EmptyString ->
  String.length shown = safeCharCount ->
  sanitizedClientSecret (hidden +:+ shown) = "..." +:+ shown
  /\ (forall short : string,
        short <> EmptyString -> (String.length short <= safeCharCount)%nat ->
        sanitizedClientSecret short = redactedMessage)
  /\ (forall rawSecret : string,
        rawSecret <> EmptyString -> sanitizedClientSecret rawSecret <> EmptyString).
Proof.
  intros Hhidden Hshown. split; [|split].
  - unfold sanitizedClientSecret.
    destruct (decide (hidden +:+ shown = EmptyString)) as [Hempty|_].
    { destruct hidden; [contradiction | discriminate Hempty]. }
    rewrite length_append, Hshown.
    destruct (decide (safeCharCount < String.length hidden + safeCharCount)%nat) as [_|Hshort].
    + rewrite Nat.add_sub, <- Hshown, substring_append. reflexivity.
    + destruct hidden; [contradiction | simpl in Hshort; lia].
  - intros short Hshort Hlen. unfold sanitizedClientSecret.
    destruct (decide (short = EmptyString)); [contradiction|].
    destruct (decide (safeCharCount < String.length short)%nat); [lia | reflexivity].
  - intros rawSecret Hraw. unfold sanitizedClientSecret.
    destruct (decide (rawSecret = EmptyString)); [contradiction|].
    destruct (decide (safeCharCount < String.length rawSecret)%nat); discriminate.
Qed.

Lemma sanitizedClientSecret_shows_ending_witness :
  sanitizedClientSecret "Kx7~very-long-secret-0123456789" = "...0123456789".
Proof.
  exact (proj1 (sanitizedClientSecret_shows_ending "Kx7~very-long-secret-" "0123456789"
                  ltac:(discriminate) eq_refl)).
Defined.

(** ** What is deployed and what is cached *)

Section RunParametersFacts.

Context {any : Type}.
Variable ofString : string -> any.
Implicit Types (h : Heap any) (kvs : gmap string (DeploymentParameter any)).

Lemma assignParameter_run h (deployParams mp : ptr) (s : DeploymentParameters) kvs
    (key text : string) :
  structs h !! deployParams = Some s ->
  Parameters s = Some mp ->
  maps h !! mp = Some kvs ->
  assignParameter ofString deployParams key text h =
    Some (tt, mkHeap (structs h)
                (<[mp := <[key := mkDeploymentParameter (ofString text)]> kvs]> (maps h))).
Proof.
  intros Hs Hmp Hkvs. unfold assignParameter.
  erewrite bind_Some by (unfold load; rewrite Hs; reflexivity).
  unfold mapassign. rewrite Hmp, Hkvs. reflexivity.
Qed.

(** The ten assignments, run on a parameter set whose map is not nil. *)
Lemma Run_assignParameters_run h (deployParams mp : ptr) (s : DeploymentParameters) kvs
    (conf : Viper) (siteName databaseType databaseName image databaseAdmin : string) :
  structs h !! deployParams = Some s ->
  Parameters s = Some mp ->
  maps h !! mp = Some kvs ->
  let param text := mkDeploymentParameter (ofString text) in
  Run_assignParameters ofString conf siteName databaseType databaseName image
    databaseAdmin deployParams h =
    Some (tt, mkHeap (structs h)
      (<[mp :=
          <["dockerRegistryServerPassword" := param (GetString conf DockerRegistryPasswordName)]>
         (<["dockerRegistryServerUsername" := param (GetString conf DockerRegistryUsernameName)]>
         (<["dockerRegistryServerURL" := param (GetString conf DockerRegistryURLName)]>
         (<["dockerRegistryAccess" := param (GetString conf DockerRegistryAccessName)]>
         (<["databaseAdministratorLoginPassword" := param (GetString conf DatabasePasswordName)]>
         (<["databaseAdministratorLogin" := param databaseAdmin]>
         (<["imageName" := param image]>
         (<["databaseName" := param databaseName]>
         (<["database" := param (ToLower databaseType)]>
         (<["name" := param siteName]> kvs)))))))))]> (maps h))).
Proof.
  intros Hs Hmp Hkvs param. unfold Run_assignParameters.
  erewrite bind_Some by (apply (assignParameter_run _ _ mp s kvs); assumption).
  do 8 (erewrite bind_Some;
        [|eapply (assignParameter_run _ _ mp s);
          [exact Hs | exact Hmp | cbn [maps]; apply lookup_insert_eq]];
        cbn [structs maps]; rewrite insert_insert_eq).
  erewrite (assignParameter_run _ _ mp s);
    [|exact Hs | exact Hmp | cbn [maps]; apply lookup_insert_eq].
  cbn [structs maps]. rewrite insert_insert_eq. reflexivity.
Qed.

Ltac lookup_names :=
  repeat first
    [ rewrite lookup_delete_eq
    | rewrite lookup_insert_eq
    | rewrite lookup_delete_ne by discriminate
    | rewrite lookup_insert_ne by discriminate ];
  try reflexivity.

(** X22: the passwords are deployed and are not cached.  After the ten
    assignments of [Run], made on a parameter set whose map is not nil,
    the parameter set that is deployed holds the two passwords read from
    the settings; the copy handed to the cache holds neither, and holds
    the eight other parameters with the values [Run] assigned, the
    database type in lower case, and every parameter [Run] does not
    assign as the parameter file gave it. *)
Theorem Run_caches_no_password (defaults : string * string) h (deployParams mp : ptr)
    (s : DeploymentParameters) kvs (conf : Viper)
    (siteName databaseType databaseName image databaseAdmin : string) :
  structs h !! deployParams = Some s ->
  Parameters s = Some mp ->
  maps h !! mp = Some kvs ->
  let param text := mkDeploymentParameter (ofString text) in
  exists (copy : ptr) h' (deployed cached : gmap string (DeploymentParameter any)),
    Run_cachedParameters ofString defaults conf siteName databaseType databaseName
      image databaseAdmin deployParams h = Some (copy, h')
    /\ contents h' deployParams = Some (Schema s, ContentVersion s, deployed)
    /\ contents h' copy = Some (Schema s, ContentVersion s, cached)
    /\ deployed !! databasePasswordKey = Some (param (GetString conf DatabasePasswordName))
    /\ deployed !! registryPasswordKey = Some (param (GetString conf DockerRegistryPasswordName))
    /\ cached !! databasePasswordKey = None
    /\ cached !! registryPasswordKey = None
    /\ cached !! "name" = Some (param siteName)
    /\ cached !! "database" = Some (param (ToLower databaseType))
    /\ cached !! "databaseName" = Some (param databaseName)
    /\ cached !! "imageName" = Some (param image)
    /\ cached !! "databaseAdministratorLogin" = Some (param databaseAdmin)
    /\ cached !! "dockerRegistryAccess" = Some (param (GetString conf DockerRegistryAccessName))
    /\ cached !! "dockerRegistryServerURL" = Some (param (GetString conf DockerRegistryURLName))
    /\ cached !! "dockerRegistryServerUsername" =
         Some (param (GetString conf DockerRegistryUsernameName))
    /\ (forall k : string, k ∉ assignedParameters ->
          cached !! k = kvs !! k /\ deployed !! k = kvs !! k).
Proof.
  intros Hs Hmp Hkvs param.
  pose proof (Run_assignParameters_run h deployParams mp s kvs conf siteName databaseType
                databaseName image databaseAdmin Hs Hmp Hkvs) as Hassign.
  cbv zeta in Hassign. fold param in Hassign.
  match type of Hassign with
  | _ = Some (tt, mkHeap _ (<[_ := ?final]> _)) => set (deployed := final) in *
  end.
  set (h1 := mkHeap (structs h) (<[mp := deployed]> (maps h))) in *.
  assert (Hc1 : contents h1 deployParams = Some (Schema s, ContentVersion s, deployed)).
  { unfold contents, h1. cbn [structs maps]. rewrite Hs, Hmp, lookup_insert_eq. reflexivity. }
  destruct (stripPasswords_contents defaults h1 deployParams _ _ _ Hc1)
    as (copy & h' & Hrun & Hne & Hstructs & Hmaps & Hcopy).
  exists copy, h', deployed,
    (delete registryPasswordKey (delete databasePasswordKey deployed)).
  split.
  { unfold Run_cachedParameters. erewrite bind_Some by exact Hassign. exact Hrun. }
  split.
  { unfold contents. rewrite (lookup_weaken _ _ _ _ Hs Hstructs), Hmp.
    erewrite (lookup_weaken _ _ mp deployed); [reflexivity| |exact Hmaps].
    unfold h1. cbn [maps]. apply lookup_insert_eq. }
  split; [exact Hcopy|].
  unfold deployed, databasePasswordKey, registryPasswordKey.
  do 12 (split; [solve [lookup_names]|]).
  intros k Hk. unfold assignedParameters in Hk.
  rewrite !not_elem_of_cons in Hk.
  destruct Hk as (H1 & H2 & H3 & H4 & H5 & H6 & H7 & H8 & H9 & H10 & _).
  split.
  - rewrite !lookup_delete_ne by congruence. rewrite !lookup_insert_ne by congruence.
    reflexivity.
  - rewrite !lookup_insert_ne by congruence. reflexivity.
Qed.

(** X23: the assignments of [Run] need a map.  When the map of the
    parameter set is nil, the first assignment panics: no parameter is
    assigned and no copy is made for the cache. *)
Theorem Run_panics_on_nil_parameters (defaults : string * string) h (deployParams : ptr)
    (s : DeploymentParameters) (conf : Viper)
    (siteName databaseType databaseName image databaseAdmin : string) :
  structs h !! deployParams = Some s ->
  Parameters s = None ->
  Run_assignParameters ofString conf siteName databaseType databaseName image
    databaseAdmin deployParams h = None
  /\ Run_cachedParameters ofString defaults conf siteName databaseType databaseName
       image databaseAdmin deployParams h = None.
Proof.
  intros Hs Hnil.
  assert (Hassign : Run_assignParameters ofString conf siteName databaseType databaseName
                      image databaseAdmin deployParams h = None).
  { unfold Run_assignParameters, assignParameter, bind at 1, bind at 1, load.
    rewrite Hs, Hnil. reflexivity. }
  split; [exact Hassign|].
  unfold Run_cachedParameters, bind. rewrite Hassign. reflexivity.
Qed.

End RunParametersFacts.

Lemma Run_caches_no_password_witness :
  let param (text : string) := mkDeploymentParameter text in
  exists (copy : ptr) (h' : Heap string)
         (deployed cached : gmap string (DeploymentParameter string)),
    Run_cachedParameters (fun text => text) (parametersSchema, "1.0.0.0") privateRegistryRun
      "mysite" "PostgreSQL" "buffalo" "appsvc/sample-hello-world:latest" "buffaloAdmin"
      1%positive twoSets = Some (copy, h')
    /\ contents h' 1%positive = Some (parametersSchema, "1.0.0.0", deployed)
    /\ contents h' copy = Some (parametersSchema, "1.0.0.0", cached)
    /\ deployed !! databasePasswordKey = Some (param "MSFT+Buffalo-k3Zq")
    /\ deployed !! registryPasswordKey = Some (param "hunter2")
    /\ cached !! databasePasswordKey = None
    /\ cached !! registryPasswordKey = None
    /\ cached !! "database" = Some (param "postgresql").
Proof.
  intros param.
  assert (Hs : structs twoSets !! 1%positive =
               Some (mkDeploymentParameters parametersSchema "1.0.0.0" (Some 1%positive)))
    by (vm_compute; reflexivity).
  assert (Hm : maps twoSets !! 1%positive = Some plainParameters)
    by (vm_compute; reflexivity).
  destruct (Run_caches_no_password (fun text => text) (parametersSchema, "1.0.0.0") twoSets
              1%positive 1%positive _ plainParameters privateRegistryRun
              "mysite" "PostgreSQL" "buffalo" "appsvc/sample-hello-world:latest"
              "buffaloAdmin" Hs eq_refl Hm)
    as (copy & h' & deployed & cached & Hrun & Hd & Hc & Hd1 & Hd2 & Hc1 & Hc2 & _ & Hdb & _).
  exists copy, h', deployed, cached.
  split; [exact Hrun|]. split; [exact Hd|]. split; [exact Hc|].
  split; [exact Hd1|]. split; [exact Hd2|]. split; [exact Hc1|]. split; [exact Hc2|].
  exact Hdb.
Defined.

Lemma Run_panics_on_nil_parameters_witness :
  Run_assignParameters (fun text => text) privateRegistryRun
    "mysite" "PostgreSQL" "buffalo" "appsvc/sample-hello-world:latest" "buffaloAdmin"
    3%positive nilMapSet = None
  /\ Run_cachedParameters (fun text => text) (parametersSchema, "1.0.0.0") privateRegistryRun
       "mysite" "PostgreSQL" "buffalo" "appsvc/sample-hello-world:latest" "buffaloAdmin"
       3%positive nilMapSet = None.
Proof.
  assert (Hs : structs nilMapSet !! 3%positive =
               Some (mkDeploymentParameters parametersSchema "1.0.0.0" None))
    by (vm_compute; reflexivity).
  exact (Run_panics_on_nil_parameters (fun text => text) (parametersSchema, "1.0.0.0")
           nilMapSet 3%positive _ privateRegistryRun
           "mysite" "PostgreSQL" "buffalo" "appsvc/sample-hello-world:latest" "buffaloAdmin"
           Hs eq_refl).
Defined.
